(** * The client-side result projector of the PDF/GLASS page

    A shallow embedding of [displayResults] and of the upload form's
    submit handler (src/index3.html), and of the small submit handler of
    src/app.js.

    JavaScript values that reach the projector come from a JSON response.
    The fields the code reads are scalars; the model keeps the scalar JSON
    values and [undefined] for an absent property.  Strings are sequences
    of UTF-8 bytes.

    The program's numbers are doubles.  [Num n] stands for the double
    that is the integer [n], which exists and behaves as modelled when
    [n] is a safe integer, of magnitude at most 2^53 - 1: there
    [ToString] prints all the digits, [parseInt] reads a digit string
    back exactly, and a sum that stays in the range is exact.  A number
    with a fraction, or outside that range, has no counterpart here
    (the program rounds, and prints an exponent from 10^21 on).  A
    statement that depends on the value of a number states the bound; a
    statement that only passes [ToString v] along holds for the
    program's [ToString] as well. *)

From Stdlib Require Import ZArith Ascii String.
From stdpp Require Import gmap strings list pretty.

Open Scope Z_scope.

(** ** JavaScript values and the coercions the code relies on *)

Module Js.

(** [Num n] is the number [n], a safe integer (see above). *)
Inductive value : Type :=
  | Undefined
  | Null
  | Bool (b : bool)
  | Num (n : Z)
  | Str (s : string).

(** ToBoolean: what [if (v)], [!v], [v || w] and [v && w] test. *)
Definition truthy (v : value) : bool :=
  match v with
  | Undefined | Null => false
  | Bool b => b
  | Num n => negb (n =? 0)
  | Str s => negb (s =? "")%string
  end.

(** ToString: what a template literal [`${v}`] and [parseInt(v)] apply.
    On numbers it is the program's for safe integers. *)
Definition ToString (v : value) : string :=
  match v with
  | Undefined => "undefined"
  | Null => "null"
  | Bool true => "true"
  | Bool false => "false"
  | Num n => pretty n
  | Str s => s
  end.

(** [v || w] *)
Definition or (v w : value) : value := if truthy v then v else w.

(** The value an element shows after [el.textContent = v]: the attribute
    is a nullable DOMString, so [null] and [undefined] clear the text. *)
Definition textContent (v : value) : string :=
  match v with
  | Undefined | Null => ""
  | _ => ToString v
  end.

(** *** parseInt *)

Definition code (c : ascii) : Z := Z.of_N (N_of_ascii c).

(** StrWhiteSpaceChar, one to three UTF-8 bytes long. *)
Definition ws1 (c : ascii) : bool :=
  let n := code c in ((9 <=? n) && (n <=? 13)) || (n =? 32).

Definition ws2 (c d : ascii) : bool :=
  (code c =? 194) && (code d =? 160).                       (* U+00A0 *)

Definition ws3 (c d e : ascii) : bool :=
  let '(x, y, z) := (code c, code d, code e) in
  ((x =? 225) && (y =? 154) && (z =? 128))                  (* U+1680 *)
  || ((x =? 226) && (y =? 128) && (128 <=? z) && (z <=? 138)) (* U+2000-200A *)
  || ((x =? 226) && (y =? 128) && ((z =? 168) || (z =? 169) || (z =? 175)))
                                             (* U+2028, U+2029, U+202F *)
  || ((x =? 226) && (y =? 129) && (z =? 159))               (* U+205F *)
  || ((x =? 227) && (y =? 128) && (z =? 128))               (* U+3000 *)
  || ((x =? 239) && (y =? 187) && (z =? 191)).              (* U+FEFF *)

Fixpoint trimStart (s : string) : string :=
  match s with
  | String c s1 =>
      if ws1 c then trimStart s1 else
      match s1 with
      | String d s2 =>
          if ws2 c d then trimStart s2 else
          match s2 with
          | String e s3 => if ws3 c d e then trimStart s3 else s
          | EmptyString => s
          end
      | EmptyString => s
      end
  | EmptyString => s
  end.

(** The value of [c] as a digit in radix [R], if it is one. *)
Definition digit (R : Z) (c : ascii) : option Z :=
  let n := code c in
  let d := if (48 <=? n) && (n <=? 57) then Some (n - 48)
           else if (97 <=? n) && (n <=? 122) then Some (n - 87)
           else if (65 <=? n) && (n <=? 90) then Some (n - 55)
           else None in
  match d with
  | Some v => if v <? R then Some v else None
  | None => None
  end.

(** The longest prefix of radix-[R] digits, as a number; [acc] is [None]
    until a digit has been read. *)
Fixpoint digits (R : Z) (s : string) (acc : option Z) : option Z :=
  match s with
  | String c s' =>
      match digit R c with
      | Some d => digits R s' (Some (R * default 0 acc + d))
      | None => acc
      end
  | EmptyString => acc
  end.

(** [parseInt(v)] with no radix argument; [None] is NaN.  The result is
    the integer the digits denote, which is the program's number when it
    is a safe integer (beyond, the program rounds to a double). *)
Definition parseInt (v : value) : option Z :=
  let inputString := ToString v in
  let trimmed := trimStart inputString in
  let '(sign, unsigned) :=
    match trimmed with
    | String "-" r => (-1, r)
    | String "+" r => (1, r)
    | _ => (1, trimmed)
    end in
  let '(R, body) :=
    match unsigned with
    | String "0" (String "x" r) | String "0" (String "X" r) => (16, r)
    | _ => (10, unsigned)
    end in
  match digits R body None with
  | Some mathInt => Some (sign * mathInt)
  | None => None
  end.

(** [n || d] on a number: NaN and 0 are falsy. *)
Definition num_or (n : option Z) (d : Z) : Z :=
  match n with
  | Some k => if k =? 0 then d else k
  | None => d
  end.

End Js.

Import Js.

(** ** The payload *)

Record ReferenceEntry : Type := {
  page : value;
  No : value;
  Reference_Code : value
}.

Record GlassEntry : Type := {
  ref_no : value;
  ref_code : value;
  GW : value;
  GH : value;
  Qty : value
}.

(** [reference_code], [glass_data] and [product_messages] are arrays when
    present; [None] is an absent (or null) property. *)
Record Payload : Type := {
  reference_code : option (list ReferenceEntry);
  glass_data : option (list GlassEntry);
  total_references : value;
  product_messages : option (list string)
}.

(** ** The part of the page that [displayResults] writes *)

Record ResultsView : Type := {
  referenceData_innerHTML : string;
  summarySection_display : string;
  totalGlass_textContent : string;
  totalRecords_textContent : string;
  totalReferences_textContent : string
}.

(** ** Markup *)

Definition dq : string := String (ascii_of_nat 34) EmptyString.
Definition nl : string := String (ascii_of_nat 10) EmptyString.

Fixpoint spaces (n : nat) : string :=
  match n with
  | O => ""
  | S k => String " " (spaces k)
  end.

(** A line of a template literal: the line break that precedes it, its
    indentation and its text. *)
Definition line (indent : nat) (text : string) : string :=
  nl +:+ spaces indent +:+ text.

Definition table_open : string :=
  line 24 ("<table class=" +:+ dq +:+ "data-table" +:+ dq +:+ ">")
  +:+ line 28 "<thead>"
  +:+ line 32 "<tr>"
  +:+ line 36 "<th>ลำดับ</th>"
  +:+ line 36 "<th>หน้า</th>"
  +:+ line 36 "<th>No</th>"
  +:+ line 36 "<th>Reference Code</th>"
  +:+ line 36 "<th>GW</th>"
  +:+ line 36 "<th>GH</th>"
  +:+ line 36 "<th>Qty</th>"
  +:+ line 32 "</tr>"
  +:+ line 28 "</thead>"
  +:+ line 28 "<tbody>"
  +:+ line 20 "".

Definition table_close : string :=
  line 28 "</tbody>"
  +:+ line 24 "</table>"
  +:+ line 20 "".

Definition td (text : string) : string := "<td>" +:+ text +:+ "</td>".

Definition td_class (class text : string) : string :=
  "<td class=" +:+ dq +:+ class +:+ dq +:+ ">" +:+ text +:+ "</td>".

(** A measurement cell: [${v || '-'}]. *)
Definition cell (v : value) : string := ToString (Js.or v (Str "-")).

Definition row_html (rowIndex : Z) (ref : ReferenceEntry) (glass : GlassEntry)
  : string :=
  line 40 "<tr>"
  +:+ line 44 (td (ToString (Num rowIndex)))
  +:+ line 44 (td_class "page-cell" (ToString (page ref)))
  +:+ line 44 (td (ToString (No ref)))
  +:+ line 44 (td (ToString (Reference_Code ref)))
  +:+ line 44 (td_class "glass-cell" (cell (GW glass)))
  +:+ line 44 (td_class "glass-cell" (cell (GH glass)))
  +:+ line 44 (td_class "glass-cell" (cell (Qty glass)))
  +:+ line 40 "</tr>"
  +:+ line 36 "".

Definition placeholder (text : string) : string :=
  "<p style=" +:+ dq +:+ "text-align: center; color: #666; padding: 40px;"
  +:+ dq +:+ ">" +:+ text +:+ "</p>".

Definition no_data : string := placeholder "ไม่พบข้อมูล".
Definition no_complete_glass : string :=
  placeholder "ไม่พบข้อมูล GLASS ที่สมบูรณ์".

(** ** displayResults *)

(** [`${glass.ref_no}-${glass.ref_code}`] and
    [`${ref.No}-${ref.Reference_Code}`].  Every key contains the
    separator, which no property inherited by the object literal [{}]
    does, so [glassByRef] is a finite map on its own keys. *)
Definition glass_refKey (glass : GlassEntry) : string :=
  ToString (ref_no glass) +:+ "-" +:+ ToString (ref_code glass).

Definition refKey (ref : ReferenceEntry) : string :=
  ToString (No ref) +:+ "-" +:+ ToString (Reference_Code ref).

(** [glass.GW || glass.GH || glass.Qty] as a condition. *)
Definition has_measurement (glass : GlassEntry) : bool :=
  truthy (Js.or (Js.or (GW glass) (GH glass)) (Qty glass)).

(** The body of [data.glass_data.forEach(glass => ...)]. *)
Definition group_glass (glassByRef : gmap string (list GlassEntry))
    (glass : GlassEntry) : gmap string (list GlassEntry) :=
  let refKey := glass_refKey glass in
  let glassByRef :=
    match glassByRef !! refKey with
    | None => <[refKey := []]> glassByRef
    | Some _ => glassByRef
    end in
  if has_measurement glass
  then alter (λ entries, entries ++ [glass]) refKey glassByRef
  else glassByRef.

Definition glassByRef (data : Payload) : gmap string (list GlassEntry) :=
  match glass_data data with
  | Some glasses => foldl group_glass ∅ glasses
  | None => ∅
  end.

(** [glassByRef[refKey] && glassByRef[refKey].length > 0] *)
Definition has_glass (glassByRef : gmap string (list GlassEntry))
    (ref : ReferenceEntry) : bool :=
  match glassByRef !! refKey ref with
  | Some entries => bool_decide (0 < length entries)%nat
  | None => false
  end.

Definition referencesWithGlass (data : Payload) (refs : list ReferenceEntry)
  : list ReferenceEntry :=
  List.filter (has_glass (glassByRef data)) refs.

(** The variables the two nested [forEach] loops update. *)
Record Table : Type := {
  totalGlassCount : Z;
  totalRecords : Z;
  tableHTML : string;
  rowIndex : Z
}.

(** The body of [glassByRef[refKey].forEach(glass => ...)].  The sums
    are the program's as long as they are safe integers. *)
Definition add_row (ref : ReferenceEntry) (t : Table) (glass : GlassEntry)
  : Table :=
  if has_measurement glass then
    let qty := num_or (parseInt (Qty glass)) 0 in
    {| totalGlassCount := totalGlassCount t + qty;
       totalRecords := totalRecords t + 1;
       tableHTML := tableHTML t +:+ row_html (rowIndex t) ref glass;
       rowIndex := rowIndex t + 1 |}
  else t.

(** The body of [referencesWithGlass.forEach((ref) => ...)]. *)
Definition add_reference (glassByRef : gmap string (list GlassEntry))
    (t : Table) (ref : ReferenceEntry) : Table :=
  match glassByRef !! refKey ref with
  | Some entries => foldl (add_row ref) t entries
  | None => t
  end.

Definition build_table (data : Payload) (refs : list ReferenceEntry) : Table :=
  let t := {| totalGlassCount := 0; totalRecords := 0;
              tableHTML := table_open; rowIndex := 1 |} in
  let t := foldl (add_reference (glassByRef data)) t
             (referencesWithGlass data refs) in
  {| totalGlassCount := totalGlassCount t;
     totalRecords := totalRecords t;
     tableHTML := tableHTML t +:+ table_close;
     rowIndex := rowIndex t |}.

Definition show_placeholder (text : string) (view : ResultsView) : ResultsView :=
  {| referenceData_innerHTML := text;
     summarySection_display := "none";
     totalGlass_textContent := totalGlass_textContent view;
     totalRecords_textContent := totalRecords_textContent view;
     totalReferences_textContent := totalReferences_textContent view |}.

Definition displayResults (data : Payload) (view : ResultsView) : ResultsView :=
  match reference_code data with
  | Some ((_ :: _) as refs) =>
      match referencesWithGlass data refs with
      | _ :: _ =>
          let t := build_table data refs in
          {| referenceData_innerHTML := tableHTML t;
             summarySection_display := "block";
             totalGlass_textContent := ToString (Num (totalGlassCount t));
             totalRecords_textContent := ToString (Num (totalRecords t));
             totalReferences_textContent :=
               textContent (total_references data) |}
      | [] => show_placeholder no_complete_glass view
      end
  | _ => show_placeholder no_data view
  end.

(** ** The rows of the table, as records

    The table body is a string; the rows it is made of are kept here as
    records so that their indices and fields can be spoken of.
    [rows_html] turns them back into the markup the loops append. *)

Record DisplayRow : Type := {
  row_index : Z;
  row_ref : ReferenceEntry;
  row_glass : GlassEntry
}.

Definition rows_html (rows : list DisplayRow) : string :=
  foldr (λ row html, row_html (row_index row) (row_ref row) (row_glass row) +:+ html)
        "" rows.

(** The glass entries of the payload, in payload order, that the loops
    reach under the reference [ref]. *)
Definition matched (data : Payload) (ref : ReferenceEntry) : list GlassEntry :=
  List.filter
    (λ glass, bool_decide (glass_refKey glass = refKey ref)
              && has_measurement glass)
    (default [] (glass_data data)).

(** Rows for [glasses] under [ref], numbered from [start]. *)
Fixpoint number_rows (start : Z) (ref : ReferenceEntry)
    (glasses : list GlassEntry) : list DisplayRow :=
  match glasses with
  | [] => []
  | glass :: rest =>
      {| row_index := start; row_ref := ref; row_glass := glass |}
      :: number_rows (start + 1) ref rest
  end.

Fixpoint rows_from (data : Payload) (start : Z) (refs : list ReferenceEntry)
  : list DisplayRow :=
  match refs with
  | [] => []
  | ref :: rest =>
      let block := number_rows start ref (matched data ref) in
      block ++ rows_from data (start + Z.of_nat (length block)) rest
  end.

(** The rows [displayResults] shows for a payload: none when it shows a
    placeholder. *)
Definition rows (data : Payload) : list DisplayRow :=
  rows_from data 1 (default [] (reference_code data)).

(** The number a row adds to [totalGlassCount]. *)
Definition qty_of (row : DisplayRow) : Z :=
  num_or (parseInt (Qty (row_glass row))) 0.

Definition sum_qty (rows : list DisplayRow) : Z :=
  foldr (λ row total, qty_of row + total) 0 rows.

(** A payload yields rows when [displayResults] draws the table. *)
Definition yields_rows (data : Payload) : bool :=
  match reference_code data with
  | Some refs => bool_decide (referencesWithGlass data refs ≠ [])
  | None => false
  end.

(** ** Auxiliary notions for the proofs *)

(** [glass] was filed under [key] by the grouping pass. *)
Definition keyed (key : string) (glass : GlassEntry) : bool :=
  bool_decide (glass_refKey glass = key).

(** [glass] was filed under [key] and kept. *)
Definition keyed_measured (key : string) (glass : GlassEntry) : bool :=
  keyed key glass && has_measurement glass.

(** The loop variables after the rows [rows] have been appended. *)
Definition extend (t : Table) (rows : list DisplayRow) : Table :=
  {| totalGlassCount := totalGlassCount t + sum_qty rows;
     totalRecords := totalRecords t + Z.of_nat (length rows);
     tableHTML := tableHTML t +:+ rows_html rows;
     rowIndex := rowIndex t + Z.of_nat (length rows) |}.


(** ** The upload form's submit handler (src/index3.html) *)

(** The JSON object of the response body.  [data] is [None] when
    [result.data] is missing, and also when it cannot be read as a
    payload: [displayResults] then throws, which it can only do before
    its first write to the page. *)
Record Result : Type := {
  success : value;
  message : value;
  error : value;
  data : option Payload
}.

(** What [await response.json()] gives: it rejects on a body that is not
    JSON; [null] is a JSON value with no properties to read; any other
    value is read through the properties the handler uses.  In [Json]
    the payload's [product_messages] is absent, an array of texts, or a
    value with no positive [length]; [JsonBadMessages] is a body read in
    the same way whose [product_messages] has a positive [length] and is
    no array (a non-empty string, say), so that it has no [map] to
    call. *)
Inductive Body : Type :=
  | NotJson
  | JsonNull
  | Json (result : Result)
  | JsonBadMessages (result : Result).

(** What [await fetch('/upload', ...)] gives: it rejects on a network
    failure, and otherwise resolves to a response whose [ok] flag tells a
    2xx status. *)
Inductive Fetched : Type :=
  | NetworkError
  | Response (ok : bool) (body : Body).

Record Page : Type := {
  loading_display : string;
  errorMessage_display : string;
  errorMessage_textContent : string;
  successMessage_display : string;
  successMessage_textContent : string;
  resultsSection_display : string;
  downloadSection_display : string;
  processBtn_disabled : bool;
  productInfo_display : string;
  productInfo_innerHTML : string;
  results : ResultsView
}.

Definition unknown_error : string := "เกิดข้อผิดพลาดที่ไม่ทราบสาเหตุ".
Definition server_error : string := "เกิดข้อผิดพลาดในการติดต่อกับเซิร์ฟเวอร์".

(** The statements under [// Reset UI]. *)
Definition reset_ui (p : Page) : Page :=
  {| loading_display := "block";
     errorMessage_display := "none";
     errorMessage_textContent := errorMessage_textContent p;
     successMessage_display := "none";
     successMessage_textContent := successMessage_textContent p;
     resultsSection_display := "none";
     downloadSection_display := "none";
     processBtn_disabled := true;
     productInfo_display := productInfo_display p;
     productInfo_innerHTML := productInfo_innerHTML p;
     results := results p |}.

(** [errorMessage.textContent = text; errorMessage.style.display = 'block'] *)
Definition show_error (text : string) (p : Page) : Page :=
  {| loading_display := loading_display p;
     errorMessage_display := "block";
     errorMessage_textContent := text;
     successMessage_display := successMessage_display p;
     successMessage_textContent := successMessage_textContent p;
     resultsSection_display := resultsSection_display p;
     downloadSection_display := downloadSection_display p;
     processBtn_disabled := processBtn_disabled p;
     productInfo_display := productInfo_display p;
     productInfo_innerHTML := productInfo_innerHTML p;
     results := results p |}.

(** [product_messages.map(msg => `<p>${msg}</p>`).join('')] *)
Definition product_html (messages : list string) : string :=
  foldr (λ msg html, ("<p>" +:+ msg +:+ "</p>") +:+ html) "" messages.

(** The branch taken on [response.ok && result.success], once
    [result.data] is known to be there. *)
Definition show_success (result : Result) (payload : Payload) (p : Page)
  : Page :=
  let info :=
    match product_messages payload with
    | Some ((_ :: _) as messages) => ("block", product_html messages)
    | _ => ("none", productInfo_innerHTML p)
    end in
  {| loading_display := loading_display p;
     errorMessage_display := errorMessage_display p;
     errorMessage_textContent := errorMessage_textContent p;
     successMessage_display := "block";
     successMessage_textContent := textContent (message result);
     resultsSection_display := "block";
     downloadSection_display := "block";
     processBtn_disabled := processBtn_disabled p;
     productInfo_display := info.1;
     productInfo_innerHTML := info.2;
     results := displayResults payload (results p) |}.

(** The same branch up to the call of [product_messages.map], which
    throws: the results are drawn and the success message is shown. *)
Definition show_success_until_map (result : Result) (payload : Payload)
    (p : Page) : Page :=
  {| loading_display := loading_display p;
     errorMessage_display := errorMessage_display p;
     errorMessage_textContent := errorMessage_textContent p;
     successMessage_display := "block";
     successMessage_textContent := textContent (message result);
     resultsSection_display := resultsSection_display p;
     downloadSection_display := downloadSection_display p;
     processBtn_disabled := processBtn_disabled p;
     productInfo_display := productInfo_display p;
     productInfo_innerHTML := productInfo_innerHTML p;
     results := displayResults payload (results p) |}.

(** How the [try] block ends: normally, or by a thrown exception, with
    the page as it is at that point. *)
Inductive Completion : Type :=
  | Normal (p : Page)
  | Throw (p : Page).

Definition try_block (fetched : Fetched) (p : Page) : Completion :=
  match fetched with
  | NetworkError => Throw p
  | Response ok NotJson => Throw p
  | Response ok JsonNull => Throw p
  | Response ok (Json result) =>
      if ok && truthy (success result) then
        match data result with
        | Some payload => Normal (show_success result payload p)
        | None => Throw p
        end
      else
        Normal (show_error
                  (textContent (Js.or (error result) (Str unknown_error))) p)
  | Response ok (JsonBadMessages result) =>
      if ok && truthy (success result) then
        match data result with
        | Some payload => Throw (show_success_until_map result payload p)
        | None => Throw p
        end
      else
        Normal (show_error
                  (textContent (Js.or (error result) (Str unknown_error))) p)
  end.

Definition catch_block (p : Page) : Page := show_error server_error p.

(** [no_file] is [fileInput.files.length === 0]. *)
Definition finally_block (no_file : bool) (p : Page) : Page :=
  {| loading_display := "none";
     errorMessage_display := errorMessage_display p;
     errorMessage_textContent := errorMessage_textContent p;
     successMessage_display := successMessage_display p;
     successMessage_textContent := successMessage_textContent p;
     resultsSection_display := resultsSection_display p;
     downloadSection_display := downloadSection_display p;
     processBtn_disabled := no_file;
     productInfo_display := productInfo_display p;
     productInfo_innerHTML := productInfo_innerHTML p;
     results := results p |}.

Definition submit (no_file : bool) (fetched : Fetched) (p : Page) : Page :=
  finally_block no_file
    match try_block fetched (reset_ui p) with
    | Normal p' => p'
    | Throw p' => catch_block p'
    end.

(** The submission shows its results. *)
Definition succeeds (fetched : Fetched) : bool :=
  match fetched with
  | Response ok (Json result) =>
      ok && truthy (success result) && bool_decide (is_Some (data result))
  | _ => false
  end.

(** ** The submit handler of src/app.js

    The handler has no message region: it rejects with [HTTP <status>]
    on a response that is not ok, and logs the parsed body otherwise. *)

Module App.

Inductive Fetched : Type :=
  | NetworkError
  | Response (ok : bool) (status : Z) (json : option string).

Inductive Outcome : Type :=
  | Rejected (reason : option string)
  | Logged (json : string).

Definition submit (fetched : Fetched) : Outcome :=
  match fetched with
  | NetworkError => Rejected None
  | Response ok status json =>
      if negb ok then Rejected (Some ("HTTP " +:+ ToString (Num status)))
      else match json with
           | Some text => Logged text
           | None => Rejected None
           end
  end.

End App.

(** ** Sample payloads and pages *)

Definition blank_view : ResultsView :=
  {| referenceData_innerHTML := "";
     summarySection_display := "none";
     totalGlass_textContent := "0";
     totalRecords_textContent := "0";
     totalReferences_textContent := "0" |}.

Definition blank_page : Page :=
  {| loading_display := "none";
     errorMessage_display := "none";
     errorMessage_textContent := "";
     successMessage_display := "none";
     successMessage_textContent := "";
     resultsSection_display := "none";
     downloadSection_display := "none";
     processBtn_disabled := false;
     productInfo_display := "none";
     productInfo_innerHTML := "";
     results := blank_view |}.

(** One reference entry keyed (1, "A") and one glass entry
    [{ref_no:1, ref_code:"A", GW:"10", GH:"20", Qty:"3"}]. *)
Definition ref_1A (page : value) : ReferenceEntry :=
  {| page := page; No := Num 1; Reference_Code := Str "A" |}.

Definition glass_1A : GlassEntry :=
  {| ref_no := Num 1; ref_code := Str "A";
     GW := Str "10"; GH := Str "20"; Qty := Str "3" |}.

Definition payload_1A (page total : value) : Payload :=
  {| reference_code := Some [ref_1A page];
     glass_data := Some [glass_1A];
     total_references := total;
     product_messages := None |}.

(** Two references; the first has two measured glass entries and one
    with no measurement between them, the second has a [Qty] that is not
    a number. *)
Definition glass_1A_empty : GlassEntry :=
  {| ref_no := Num 1; ref_code := Str "A";
     GW := Str ""; GH := Null; Qty := Num 0 |}.

Definition glass_1A_second : GlassEntry :=
  {| ref_no := Str "1"; ref_code := Str "A";
     GW := Num 0; GH := Str "35"; Qty := Num 4 |}.

Definition ref_2B : ReferenceEntry :=
  {| page := Num 5; No := Num 2; Reference_Code := Str "B" |}.

Definition glass_2B : GlassEntry :=
  {| ref_no := Num 2; ref_code := Str "B";
     GW := Str "7"; GH := Undefined; Qty := Str "abc" |}.

Definition payload_mixed : Payload :=
  {| reference_code := Some [ref_1A (Num 3); ref_2B];
     glass_data :=
       Some [glass_1A; glass_2B; glass_1A_empty; glass_1A_second];
     total_references := Num 9;
     product_messages := None |}.






(** A response that is not ok and carries the server's own message. *)
Definition refused : Fetched :=
  Response false
    (Json {| success := Bool false; message := Undefined;
             error := Str "File too large"; data := None |}).

(** ** Choosing a file: the drag-and-drop handlers (src/index3.html) *)

(** The upload area, the file input (a file is the name the script
    reads) and the rest of the page. *)
Record Form : Type := {
  uploadArea_classList : list string;
  uploadArea_innerHTML : string;
  fileInput_files : list string;
  form_page : Page
}.

(** A drag event: the two flags [preventDefaults] sets and
    [e.dataTransfer.files]. *)
Record DragEvent : Type := {
  defaultPrevented : bool;
  propagationStopped : bool;
  dataTransfer_files : list string
}.

Inductive DragKind : Type := dragenter | dragover | dragleave | drop.

(** [classList.add(token)] and [classList.remove(token)] on the ordered
    set of class names. *)
Definition classList_add (token : string) (tokens : list string)
  : list string :=
  if bool_decide (token ∈ tokens) then tokens else tokens ++ [token].

Definition classList_remove (token : string) (tokens : list string)
  : list string :=
  List.filter (λ t, negb (t =? token)%string) tokens.

Definition preventDefaults (e : DragEvent) : DragEvent :=
  {| defaultPrevented := true;
     propagationStopped := true;
     dataTransfer_files := dataTransfer_files e |}.

Definition highlight (f : Form) : Form :=
  {| uploadArea_classList := classList_add "dragover" (uploadArea_classList f);
     uploadArea_innerHTML := uploadArea_innerHTML f;
     fileInput_files := fileInput_files f;
     form_page := form_page f |}.

Definition unhighlight (f : Form) : Form :=
  {| uploadArea_classList :=
       classList_remove "dragover" (uploadArea_classList f);
     uploadArea_innerHTML := uploadArea_innerHTML f;
     fileInput_files := fileInput_files f;
     form_page := form_page f |}.

(** The markup [updateFileStatus] puts in the upload area. *)
Definition file_status (fileName : string) : string :=
  line 20 "<div>"
  +:+ line 24 ("<strong style=" +:+ dq +:+ "color: #28a745;" +:+ dq
               +:+ ">✅ ไฟล์ที่เลือก: " +:+ fileName +:+ "</strong><br><br>")
  +:+ line 24 ("<small style=" +:+ dq +:+ "color: #666;" +:+ dq
               +:+ ">คลิกเพื่อเลือกไฟล์อื่น</small>")
  +:+ line 20 "</div>"
  +:+ line 16 "".

(** [processBtn.disabled = disabled] *)
Definition set_disabled (disabled : bool) (p : Page) : Page :=
  {| loading_display := loading_display p;
     errorMessage_display := errorMessage_display p;
     errorMessage_textContent := errorMessage_textContent p;
     successMessage_display := successMessage_display p;
     successMessage_textContent := successMessage_textContent p;
     resultsSection_display := resultsSection_display p;
     downloadSection_display := downloadSection_display p;
     processBtn_disabled := disabled;
     productInfo_display := productInfo_display p;
     productInfo_innerHTML := productInfo_innerHTML p;
     results := results p |}.

Definition updateFileStatus (f : Form) : Form :=
  match fileInput_files f with
  | fileName :: _ =>
      {| uploadArea_classList := uploadArea_classList f;
         uploadArea_innerHTML := file_status fileName;
         fileInput_files := fileInput_files f;
         form_page := set_disabled false (form_page f) |}
  | [] => f
  end.

Definition handleDrop (e : DragEvent) (f : Form) : Form :=
  match dataTransfer_files e with
  | _ :: _ =>
      updateFileStatus
        {| uploadArea_classList := uploadArea_classList f;
           uploadArea_innerHTML := uploadArea_innerHTML f;
           fileInput_files := dataTransfer_files e;
           form_page := form_page f |}
  | [] => f
  end.

(** The listeners of the upload area for one event, in the order they
    were added. *)
Definition dispatch (kind : DragKind) (e : DragEvent) (f : Form)
  : DragEvent * Form :=
  let e := preventDefaults e in
  match kind with
  | dragenter | dragover => (e, highlight f)
  | dragleave => (e, unhighlight f)
  | drop => (e, handleDrop e (unhighlight f))
  end.

(** The [change] listener of the file input, once the browser has put
    the user's choice [chosen] in [fileInput.files]. *)
Definition change (chosen : list string) (f : Form) : Form :=
  updateFileStatus
    {| uploadArea_classList := uploadArea_classList f;
       uploadArea_innerHTML := uploadArea_innerHTML f;
       fileInput_files := chosen;
       form_page := form_page f |}.

(** The submit handler on the whole form: [finally] reads
    [fileInput.files.length === 0]. *)
Definition submit_form (fetched : Fetched) (f : Form) : Form :=
  {| uploadArea_classList := uploadArea_classList f;
     uploadArea_innerHTML := uploadArea_innerHTML f;
     fileInput_files := fileInput_files f;
     form_page :=
       submit (bool_decide (fileInput_files f = [])) fetched (form_page f) |}.

(** The form as the page loads: no file chosen, the upload area with its
    one class and its invitation text [invitation]. *)
Definition initial_form (invitation : string) : Form :=
  {| uploadArea_classList := ["upload-area"];
     uploadArea_innerHTML := invitation;
     fileInput_files := [];
     form_page := blank_page |}.

(** ** Keys without the separator *)

(** No ["-"] in [s]. *)
Fixpoint dash_free (s : string) : bool :=
  match s with
  | EmptyString => true
  | String c s' => negb (code c =? 45) && dash_free s'
  end.

(** ** More sample payloads *)




(** One reference and glass entries whose [Qty] is written in several
    ways. *)
Definition glass_qty (qty : value) : GlassEntry :=
  {| ref_no := Num 1; ref_code := Str "A";
     GW := Str "10"; GH := Str "20"; Qty := qty |}.

Definition payload_quantities : Payload :=
  {| reference_code := Some [ref_1A (Num 3)];
     glass_data :=
       Some [glass_qty (Str "3"); glass_qty (Str " 12 pcs");
             glass_qty (Str "abc"); glass_qty Undefined;
             glass_qty (Num 4); glass_qty (Str "-2");
             glass_qty (Str "0x10")];
     total_references := Num 1;
     product_messages := None |}.

(** Responses of the kinds the handler tells apart. *)
Definition result_of (success error : value) (data : option Payload)
  : Result :=
  {| success := success; message := Str "done"; error := error;
     data := data |}.



(** The double quote, for markup written out in statements. *)
Abbreviation quote := (String (ascii_of_nat 34) EmptyString).
(** ** Strings and coercions *)

Lemma string_app_cons (c : ascii) (s1 s2 : string) :
  String c s1 +:+ s2 = String c (s1 +:+ s2).
Proof. reflexivity. Qed.

Lemma string_app_assoc (s1 s2 s3 : string) :
  (s1 +:+ s2) +:+ s3 = s1 +:+ (s2 +:+ s3).
Proof.
  induction s1 as [|c s1 IH]; [done |].
  by rewrite !string_app_cons, IH.
Qed.

Lemma string_app_nil_r (s : string) : s +:+ "" = s.
Proof.
  induction s as [|c s IH]; [done |].
  by rewrite string_app_cons, IH.
Qed.

Lemma rows_html_cons (row : DisplayRow) (rows : list DisplayRow) :
  rows_html (row :: rows)
  = row_html (row_index row) (row_ref row) (row_glass row) +:+ rows_html rows.
Proof. reflexivity. Qed.

Lemma rows_html_app (rows1 rows2 : list DisplayRow) :
  rows_html (rows1 ++ rows2) = rows_html rows1 +:+ rows_html rows2.
Proof.
  induction rows1 as [|row rows1 IH]; [done |].
  rewrite <- app_comm_cons, !rows_html_cons, IH.
  symmetry. apply string_app_assoc.
Qed.

Lemma sum_qty_app (rows1 rows2 : list DisplayRow) :
  sum_qty (rows1 ++ rows2) = sum_qty rows1 + sum_qty rows2.
Proof.
  induction rows1 as [|row rows1 IH]; [simpl; lia |].
  rewrite <- app_comm_cons. unfold sum_qty in *. simpl foldr. rewrite IH. lia.
Qed.

Lemma has_measurement_orb (glass : GlassEntry) :
  has_measurement glass
  = truthy (GW glass) || truthy (GH glass) || truthy (Qty glass).
Proof.
  unfold has_measurement, Js.or.
  destruct (truthy (GW glass)) eqn:Hw; simpl.
  - by rewrite Hw.
  - destruct (truthy (GH glass)) eqn:Hh; simpl; [by rewrite Hh | done].
Qed.

(** ** The grouping pass *)

Lemma group_glass_lookup (m : gmap string (list GlassEntry))
    (glass : GlassEntry) (key : string) :
  group_glass m glass !! key =
    if keyed key glass
    then Some (default [] (m !! key)
               ++ (if has_measurement glass then [glass] else []))
    else m !! key.
Proof.
  unfold group_glass, keyed.
  destruct (decide (glass_refKey glass = key)) as [<-|Hne].
  - rewrite bool_decide_eq_true_2 by done.
    destruct (m !! glass_refKey glass) as [entries|] eqn:Hm;
      destruct (has_measurement glass); simpl;
      rewrite ?lookup_alter_eq, ?lookup_insert_eq, ?Hm; simpl;
      by rewrite ?app_nil_r.
  - rewrite bool_decide_eq_false_2 by done.
    destruct (m !! glass_refKey glass) as [entries|] eqn:Hm;
      destruct (has_measurement glass);
      by rewrite ?lookup_alter_ne, ?lookup_insert_ne by done.
Qed.

Lemma unkeyed_filter (glasses : list GlassEntry) (key : string) :
  existsb (keyed key) glasses = false →
  List.filter (keyed_measured key) glasses = [].
Proof.
  induction glasses as [|glass glasses IH]; simpl; [done |].
  intros [Hk Hex]%orb_false_iff.
  unfold keyed_measured at 1. rewrite Hk. simpl. by apply IH.
Qed.

Lemma group_fold_lookup (glasses : list GlassEntry) (key : string) :
  foldl group_glass ∅ glasses !! key =
    if existsb (keyed key) glasses
    then Some (List.filter (keyed_measured key) glasses)
    else None.
Proof.
  induction glasses as [|glass glasses IH] using rev_ind; [done |].
  rewrite foldl_snoc, group_glass_lookup, IH, existsb_app, List.filter_app.
  simpl. rewrite orb_false_r.
  destruct (keyed key glass) eqn:Hk.
  - rewrite orb_true_r.
    replace (keyed_measured key glass) with (has_measurement glass)
      by (unfold keyed_measured; by rewrite Hk).
    destruct (existsb (keyed key) glasses) eqn:Hex; simpl; [done |].
    by rewrite (unkeyed_filter _ _ Hex).
  - replace (keyed_measured key glass) with false
      by (unfold keyed_measured; by rewrite Hk).
    by rewrite orb_false_r, app_nil_r.
Qed.

Lemma matched_measured (data : Payload) (ref : ReferenceEntry) :
  forallb has_measurement (matched data ref) = true.
Proof.
  apply forallb_forall. intros glass Hin.
  apply filter_In in Hin as [_ Hin].
  by apply andb_true_iff in Hin as [_ ?].
Qed.

Lemma glassByRef_lookup (data : Payload) (ref : ReferenceEntry)
    (entries : list GlassEntry) :
  glassByRef data !! refKey ref = Some entries → entries = matched data ref.
Proof.
  unfold glassByRef, matched.
  destruct (glass_data data) as [glasses|]; simpl; [|done].
  rewrite group_fold_lookup.
  destruct (existsb _ glasses); [|done]. by intros [= <-].
Qed.

Lemma glassByRef_None (data : Payload) (ref : ReferenceEntry) :
  glassByRef data !! refKey ref = None → matched data ref = [].
Proof.
  unfold glassByRef, matched.
  destruct (glass_data data) as [glasses|]; simpl; [|done].
  rewrite group_fold_lookup.
  destruct (existsb _ glasses) eqn:Hex; [done |]. intros _.
  by apply unkeyed_filter.
Qed.

Lemma has_glass_matched (data : Payload) (ref : ReferenceEntry) :
  has_glass (glassByRef data) ref = bool_decide (matched data ref ≠ []).
Proof.
  unfold has_glass.
  destruct (glassByRef data !! refKey ref) as [entries|] eqn:Hm.
  - apply glassByRef_lookup in Hm as ->. apply bool_decide_ext.
    destruct (matched data ref); simpl; [split; [lia | done] |].
    split; [done | lia].
  - by rewrite (glassByRef_None _ _ Hm).
Qed.

(** ** The rendering pass *)

Lemma extend_nil (t : Table) : extend t [] = t.
Proof.
  destruct t as [g r h i]. unfold extend. simpl.
  rewrite string_app_nil_r. f_equal; lia.
Qed.

Lemma extend_app (t : Table) (rows1 rows2 : list DisplayRow) :
  extend (extend t rows1) rows2 = extend t (rows1 ++ rows2).
Proof.
  unfold extend. simpl.
  rewrite sum_qty_app, rows_html_app, length_app, string_app_assoc.
  f_equal; lia.
Qed.

Lemma add_row_measured (ref : ReferenceEntry) (t : Table) (glass : GlassEntry) :
  has_measurement glass = true →
  add_row ref t glass
  = extend t [{| row_index := rowIndex t; row_ref := ref; row_glass := glass |}].
Proof.
  intros Hm. unfold add_row, extend. rewrite Hm.
  rewrite rows_html_cons. simpl.
  rewrite string_app_nil_r. unfold qty_of. simpl. f_equal; lia.
Qed.

Lemma add_row_fold (ref : ReferenceEntry) (glasses : list GlassEntry) :
  forallb has_measurement glasses = true →
  ∀ t, foldl (add_row ref) t glasses
       = extend t (number_rows (rowIndex t) ref glasses).
Proof.
  induction glasses as [|glass glasses IH]; intros Hall t.
  - simpl. by rewrite extend_nil.
  - simpl in Hall. apply andb_true_iff in Hall as [Hm Hall].
    simpl foldl. rewrite (IH Hall), (add_row_measured _ _ _ Hm), extend_app.
    simpl. by replace (rowIndex t + Z.of_nat 1) with (rowIndex t + 1) by lia.
Qed.

Lemma add_reference_rows (data : Payload) (t : Table) (ref : ReferenceEntry) :
  add_reference (glassByRef data) t ref
  = extend t (number_rows (rowIndex t) ref (matched data ref)).
Proof.
  unfold add_reference.
  destruct (glassByRef data !! refKey ref) as [entries|] eqn:Hm.
  - apply glassByRef_lookup in Hm as ->.
    apply add_row_fold, matched_measured.
  - rewrite (glassByRef_None _ _ Hm). simpl. by rewrite extend_nil.
Qed.

Lemma add_reference_fold (data : Payload) (refs : list ReferenceEntry) :
  ∀ t, foldl (add_reference (glassByRef data)) t refs
       = extend t (rows_from data (rowIndex t) refs).
Proof.
  induction refs as [|ref refs IH]; intros t.
  - simpl. by rewrite extend_nil.
  - simpl foldl. by rewrite IH, add_reference_rows, extend_app.
Qed.

Lemma rows_from_survivors (data : Payload) (refs : list ReferenceEntry) :
  ∀ start, rows_from data start (referencesWithGlass data refs)
           = rows_from data start refs.
Proof.
  unfold referencesWithGlass.
  induction refs as [|ref refs IH]; intros start; [done |].
  simpl. rewrite has_glass_matched.
  destruct (matched data ref) as [|glass glasses] eqn:Hm.
  - rewrite bool_decide_eq_false_2 by (intros H; by apply H).
    simpl. rewrite Z.add_0_r. apply IH.
  - rewrite bool_decide_eq_true_2 by done.
    simpl. rewrite Hm. simpl. by rewrite IH.
Qed.

Lemma build_table_rows (data : Payload) (refs : list ReferenceEntry) :
  let rs := rows_from data 1 refs in
  build_table data refs =
    {| totalGlassCount := sum_qty rs;
       totalRecords := Z.of_nat (length rs);
       tableHTML := table_open +:+ rows_html rs +:+ table_close;
       rowIndex := 1 + Z.of_nat (length rs) |}.
Proof.
  unfold build_table.
  rewrite add_reference_fold, rows_from_survivors. simpl.
  by rewrite string_app_assoc.
Qed.

Lemma rows_from_nil (data : Payload) (refs : list ReferenceEntry) :
  referencesWithGlass data refs = [] → ∀ start, rows_from data start refs = [].
Proof.
  intros Hnone start. by rewrite <- rows_from_survivors, Hnone.
Qed.

(** What [displayResults] leaves on the page, through the rows. *)
Lemma displayResults_table (data : Payload) (view : ResultsView) :
  yields_rows data = true →
  displayResults data view =
    {| referenceData_innerHTML :=
         table_open +:+ rows_html (rows data) +:+ table_close;
       summarySection_display := "block";
       totalGlass_textContent := ToString (Num (sum_qty (rows data)));
       totalRecords_textContent :=
         ToString (Num (Z.of_nat (length (rows data))));
       totalReferences_textContent := textContent (total_references data) |}.
Proof.
  unfold yields_rows, displayResults, rows.
  destruct (reference_code data) as [[|ref refs]|]; [done | | done].
  intros Hsome%bool_decide_eq_true.
  destruct (referencesWithGlass data (ref :: refs)) eqn:Hs; [done |].
  by rewrite build_table_rows.
Qed.

Lemma displayResults_placeholder (data : Payload) (view : ResultsView) :
  yields_rows data = false →
  rows data = [] ∧
  displayResults data view =
    show_placeholder
      (match reference_code data with
       | Some (_ :: _) => no_complete_glass
       | _ => no_data
       end) view.
Proof.
  unfold yields_rows, displayResults, rows.
  destruct (reference_code data) as [[|ref refs]|]; [done | | done].
  intros Hnone%bool_decide_eq_false.
  change (default [] (Some (ref :: refs))) with (ref :: refs).
  destruct (referencesWithGlass data (ref :: refs)) eqn:Hs.
  - split; [|done]. by apply rows_from_nil.
  - by destruct Hnone.
Qed.

(** ** The rows: indices, order and membership *)

Lemma number_rows_length (start : Z) (ref : ReferenceEntry)
    (glasses : list GlassEntry) :
  length (number_rows start ref glasses) = length glasses.
Proof.
  revert start. induction glasses as [|glass glasses IH]; intros start; simpl;
    [done | by rewrite IH].
Qed.

Lemma number_rows_lookup (ref : ReferenceEntry) (glasses : list GlassEntry) :
  ∀ (start : Z) (k : nat),
    number_rows start ref glasses !! k
    = (λ glass, {| row_index := start + Z.of_nat k;
                   row_ref := ref; row_glass := glass |}) <$> glasses !! k.
Proof.
  induction glasses as [|glass glasses IH]; intros start k; [done |].
  destruct k as [|k]; simpl.
  - by rewrite Z.add_0_r.
  - rewrite IH. destruct (glasses !! k); simpl; [|done].
    do 2 f_equal. lia.
Qed.

Lemma number_rows_index (ref : ReferenceEntry) (glasses : list GlassEntry) :
  ∀ start : nat,
    map row_index (number_rows (Z.of_nat start) ref glasses)
    = map Z.of_nat (seq start (length glasses)).
Proof.
  induction glasses as [|glass glasses IH]; intros start; [done |].
  simpl. f_equal.
  replace (Z.of_nat start + 1) with (Z.of_nat (S start)) by lia. apply IH.
Qed.


Lemma number_rows_glass (start : Z) (ref : ReferenceEntry)
    (glasses : list GlassEntry) :
  map row_glass (number_rows start ref glasses) = glasses.
Proof.
  revert start. induction glasses as [|glass glasses IH]; intros start; simpl;
    [done | by rewrite IH].
Qed.

Lemma rows_from_app (data : Payload) (refs1 refs2 : list ReferenceEntry) :
  ∀ start,
    rows_from data start (refs1 ++ refs2)
    = rows_from data start refs1
      ++ rows_from data
           (start + Z.of_nat (length (rows_from data start refs1))) refs2.
Proof.
  induction refs1 as [|ref refs1 IH]; intros start; simpl.
  - by rewrite Z.add_0_r.
  - rewrite IH, <- app_assoc, length_app. do 3 f_equal. lia.
Qed.

Lemma rows_from_index (data : Payload) (refs : list ReferenceEntry) :
  ∀ start : nat,
    map row_index (rows_from data (Z.of_nat start) refs)
    = map Z.of_nat
        (seq start (length (rows_from data (Z.of_nat start) refs))).
Proof.
  induction refs as [|ref refs IH]; intros start; [done |].
  simpl. rewrite map_app, length_app, seq_app, map_app.
  rewrite number_rows_index, !number_rows_length.
  f_equal. rewrite <- Nat2Z.inj_add. apply IH.
Qed.


Lemma rows_from_glass (data : Payload) (refs : list ReferenceEntry) :
  ∀ start,
    map row_glass (rows_from data start refs) = flat_map (matched data) refs.
Proof.
  induction refs as [|ref refs IH]; intros start; [done |].
  simpl. by rewrite map_app, number_rows_glass, IH.
Qed.

Lemma number_rows_In (start : Z) (ref : ReferenceEntry)
    (glasses : list GlassEntry) (row : DisplayRow) :
  In row (number_rows start ref glasses) →
  row_ref row = ref ∧ In (row_glass row) glasses.
Proof.
  revert start. induction glasses as [|glass glasses IH]; intros start; [done |].
  intros [<- | Hin]; simpl; [by auto |].
  destruct (IH _ Hin) as [? ?]. by auto.
Qed.

Lemma rows_from_In (data : Payload) (refs : list ReferenceEntry)
    (row : DisplayRow) :
  ∀ start,
    In row (rows_from data start refs) →
    In (row_ref row) refs ∧ In (row_glass row) (matched data (row_ref row)).
Proof.
  induction refs as [|ref refs IH]; intros start; [done |].
  simpl. intros [Hin | Hin]%in_app_or.
  - apply number_rows_In in Hin as [-> Hin]. by auto.
  - destruct (IH _ Hin) as [? ?]. by auto.
Qed.


Lemma matched_In (data : Payload) (ref : ReferenceEntry) (glass : GlassEntry) :
  In glass (matched data ref)
  ↔ In glass (default [] (glass_data data))
    ∧ glass_refKey glass = refKey ref
    ∧ has_measurement glass = true.
Proof.
  unfold matched. rewrite filter_In, andb_true_iff, bool_decide_eq_true.
  tauto.
Qed.

(** ** parseInt on text that does not start a number *)

(** A first character after which [parseInt] reads no digit: a byte of
    the ASCII range that is neither white space, a sign nor a decimal
    digit. *)
Lemma parseInt_NaN (c : ascii) (s : string) :
  code c < 128 → ws1 c = false → code c ≠ 43 → code c ≠ 45 →
  ¬ (48 ≤ code c ≤ 57) →
  parseInt (Str (String c s)) = None.
Proof.
  intros Hascii Hws Hplus Hminus Hdigit.
  destruct c as [b0 b1 b2 b3 b4 b5 b6 b7].
  destruct b0, b1, b2, b3, b4, b5, b6, b7;
    solve [ exfalso; unfold code in *; simpl in *; first [discriminate | lia]
          | by destruct s as [|d [|e s]] ].
Qed.

(** ** Falsy values and cells *)

Lemma truthy_false (v : value) :
  truthy v = false
  ↔ v = Undefined ∨ v = Null ∨ v = Bool false ∨ v = Num 0 ∨ v = Str "".
Proof.
  split.
  - destruct v as [| |[]|n|s]; simpl; intros H; try discriminate; auto.
    + apply negb_false_iff, Z.eqb_eq in H. subst. auto.
    + apply negb_false_iff, String.eqb_eq in H. subst. auto 6.
  - by intros [-> | [-> | [-> | [-> | ->]]]].
Qed.

Lemma cell_cases (v : value) : cell v = if truthy v then ToString v else "-".
Proof. unfold cell, Js.or. by destruct (truthy v). Qed.


(** ** The submit handlers *)

Lemma submit_success (no_file : bool) (fetched : Fetched) (p : Page) :
  succeeds fetched = true →
  ∃ result payload,
    fetched = Response true (Json result) ∧ data result = Some payload
    ∧ submit no_file fetched p
      = finally_block no_file (show_success result payload (reset_ui p)).
Proof.
  destruct fetched as [|ok [| |result|result]]; try done. simpl.
  intros [[Hok Hsuccess]%andb_true_iff Hdata%bool_decide_eq_true]%andb_true_iff.
  destruct Hdata as [payload Hdata]. exists result, payload.
  destruct ok; [|done]. unfold submit, try_block.
  by rewrite Hsuccess, Hdata.
Qed.

Lemma app_submit_not_ok (status : Z) (json : option string) :
  App.submit (App.Response false status json)
  = App.Rejected (Some ("HTTP " +:+ pretty status)).
Proof. reflexivity. Qed.

(** ** parseInt on decimal text *)

Lemma digit_pretty_N_char (d : N) :
  (d < 10)%N → digit 10 (pretty_N_char d) = Some (Z.of_N d).
Proof.
  intros Hd.
  assert (d = 0 ∨ d = 1 ∨ d = 2 ∨ d = 3 ∨ d = 4 ∨ d = 5 ∨ d = 6 ∨ d = 7
          ∨ d = 8 ∨ d = 9)%N as Hcases by lia.
  repeat (destruct Hcases as [-> | Hcases]; [reflexivity |]).
  by subst.
Qed.

Lemma pretty_N_go_app (x : N) :
  ∀ s t, pretty_N_go x s +:+ t = pretty_N_go x (s +:+ t).
Proof.
  induction (N.lt_wf_0 x) as [x _ IH]; intros s t.
  assert (x = 0 ∨ 0 < x)%N as [-> | Hx] by lia.
  - by rewrite !pretty_N_go_0.
  - rewrite (pretty_N_go_step x s), (pretty_N_go_step x (s +:+ t)) by done.
    by rewrite IH by by apply N.div_lt.
Qed.

Lemma digits_pretty_N_go (x : N) :
  ∀ s acc,
    (0 < x)%N → default 0 acc = 0 →
    digits 10 (pretty_N_go x s) acc = digits 10 s (Some (Z.of_N x)).
Proof.
  induction (N.lt_wf_0 x) as [x _ IH]; intros s acc Hx Hacc.
  rewrite pretty_N_go_step by done.
  assert (Hmod : (x `mod` 10 < 10)%N) by by apply N.mod_lt.
  destruct (N.eq_0_gt_0_cases (x `div` 10)) as [Hq | Hq].
  - rewrite Hq, pretty_N_go_0. simpl.
    rewrite digit_pretty_N_char, Hacc by done.
    do 2 f_equal. pose proof (N.div_mod x 10). lia.
  - rewrite IH by (by (apply N.div_lt) || done). simpl.
    rewrite digit_pretty_N_char by done. simpl.
    do 2 f_equal. pose proof (N.div_mod x 10). lia.
Qed.

(** The decimal text of a positive number starts with a digit from 1
    to 9. *)
Lemma pretty_N_go_head (x : N) :
  ∀ s, (0 < x)%N →
       ∃ c r, pretty_N_go x s = String c r ∧ 49 ≤ code c ≤ 57.
Proof.
  induction (N.lt_wf_0 x) as [x _ IH]; intros s Hx.
  rewrite pretty_N_go_step by done.
  destruct (N.eq_0_gt_0_cases (x `div` 10)) as [Hq | Hq].
  - rewrite Hq, pretty_N_go_0. eexists _, _. split; [done |].
    assert (Hsmall : (x < 10)%N).
    { pose proof (N.div_mod x 10). pose proof (N.mod_lt x 10). lia. }
    rewrite N.mod_small by done.
    assert (x = 1 ∨ x = 2 ∨ x = 3 ∨ x = 4 ∨ x = 5 ∨ x = 6 ∨ x = 7 ∨ x = 8
            ∨ x = 9)%N as Hcases by lia.
    repeat (destruct Hcases as [-> | Hcases]; [by vm_compute |]).
    subst. by vm_compute.
  - apply IH; [by apply N.div_lt | done].
Qed.

(** Nothing is trimmed before a character of the ASCII range that is
    not white space. *)
Lemma trimStart_plain (c : ascii) (s : string) :
  code c < 128 → ws1 c = false → trimStart (String c s) = String c s.
Proof.
  intros Hc Hws.
  assert (H2 : ∀ d, ws2 c d = false).
  { intros d. unfold ws2. by rewrite (proj2 (Z.eqb_neq _ _)) by lia. }
  assert (H3 : ∀ d e, ws3 c d e = false).
  { intros d e. unfold ws3.
    by rewrite !(proj2 (Z.eqb_neq (code c) _)) by lia. }
  destruct s as [|d [|e s]]; simpl; by rewrite Hws, ?H2, ?H3.
Qed.

(** On text that starts with a digit from 1 to 9 there is nothing to
    trim, no sign and no radix prefix. *)
Lemma parseInt_digit_start (c : ascii) (r : string) :
  49 ≤ code c ≤ 57 →
  parseInt (Str (String c r)) = digits 10 (String c r) None.
Proof.
  intros Hc. unfold parseInt, ToString.
  rewrite trimStart_plain by (unfold ws1; lia).
  generalize digits. intros D.
  destruct c as [b0 b1 b2 b3 b4 b5 b6 b7].
  destruct b0, b1, b2, b3, b4, b5, b6, b7;
    try (exfalso; unfold code in Hc; simpl in Hc; lia);
    simpl; by destruct (D 10 _ None) as [[]|].
Qed.

Lemma parseInt_minus_digit_start (c : ascii) (r : string) :
  49 ≤ code c ≤ 57 →
  parseInt (Str (String "-" (String c r)))
  = Z.opp <$> digits 10 (String c r) None.
Proof.
  intros Hc. unfold parseInt, ToString.
  rewrite trimStart_plain by done.
  generalize digits. intros D.
  destruct c as [b0 b1 b2 b3 b4 b5 b6 b7].
  destruct b0, b1, b2, b3, b4, b5, b6, b7;
    try (exfalso; unfold code in Hc; simpl in Hc; lia);
    simpl; by destruct (D 10 _ None) as [[]|].
Qed.

(** Reading stops at the first character that is not a digit. *)
Lemma digits_stop (n : Z) (rest : string) :
  match rest with
  | EmptyString => True
  | String c _ => ¬ (48 ≤ code c ≤ 57)
  end →
  digits 10 rest (Some n) = Some n.
Proof.
  destruct rest as [|c rest]; [done |]. intros Hc. simpl.
  unfold digit.
  destruct ((48 <=? code c) && (code c <=? 57)) eqn:Hd.
  - apply andb_true_iff in Hd as [?%Z.leb_le ?%Z.leb_le]. lia.
  - destruct ((97 <=? code c) && (code c <=? 122)) eqn:Hl.
    + apply andb_true_iff in Hl as [?%Z.leb_le ?%Z.leb_le].
      by rewrite (proj2 (Z.ltb_ge _ _)) by lia.
    + destruct ((65 <=? code c) && (code c <=? 90)) eqn:Hu; [|done].
      apply andb_true_iff in Hu as [?%Z.leb_le ?%Z.leb_le].
      by rewrite (proj2 (Z.ltb_ge _ _)) by lia.
Qed.

Lemma parseInt_zero_start (rest : string) :
  match rest with
  | EmptyString => True
  | String c _ => code c ≠ 120 ∧ code c ≠ 88
  end →
  parseInt (Str (String "0" rest)) = digits 10 (String "0" rest) None.
Proof.
  intros Hrest. unfold parseInt, ToString.
  rewrite trimStart_plain by done.
  generalize digits. intros D.
  destruct rest as [|c rest]; [simpl; by destruct (D 10 _ None) as [[]|] |].
  destruct c as [b0 b1 b2 b3 b4 b5 b6 b7].
  destruct b0, b1, b2, b3, b4, b5, b6, b7;
    try (exfalso; unfold code in Hrest; simpl in Hrest; lia);
    simpl; by destruct (D 10 _ None) as [[]|].
Qed.

Lemma pretty_positive_app (p : positive) (rest : string) :
  pretty p +:+ rest = pretty_N_go (Npos p) rest.
Proof.
  unfold pretty, pretty_positive, pretty, pretty_N.
  rewrite decide_False by done. by rewrite pretty_N_go_app.
Qed.

Lemma digits_pretty_positive (p : positive) (rest : string) :
  match rest with
  | EmptyString => True
  | String c _ => ¬ (48 ≤ code c ≤ 57)
  end →
  ∃ c r, pretty p +:+ rest = String c r ∧ 49 ≤ code c ≤ 57
         ∧ digits 10 (String c r) None = Some (Zpos p).
Proof.
  intros Hrest. rewrite pretty_positive_app.
  destruct (pretty_N_go_head (Npos p) rest) as (c & r & Heq & Hc); [done |].
  exists c, r. split; [done |]. split; [done |].
  rewrite <- Heq, digits_pretty_N_go by done.
  by rewrite digits_stop.
Qed.

(** [parseInt] reads back the decimal text of a number, whatever follows
    it, as long as what follows does not go on with a digit (or, after a
    lone 0, with the x of a radix prefix). *)
Lemma parseInt_pretty (n : Z) (rest : string) :
  match rest with
  | EmptyString => True
  | String c _ =>
      ¬ (48 ≤ code c ≤ 57) ∧ (n = 0 → code c ≠ 120 ∧ code c ≠ 88)
  end →
  parseInt (Str (pretty n +:+ rest)) = Some n.
Proof.
  intros Hrest.
  assert (Hstop : match rest with
                  | EmptyString => True
                  | String c _ => ¬ (48 ≤ code c ≤ 57)
                  end) by (destruct rest; tauto).
  destruct n as [|p|p].
  - change (pretty 0 +:+ rest) with (String "0" rest).
    rewrite parseInt_zero_start by (destruct rest; [done | by apply Hrest]).
    change (digits 10 (String "0" rest) None) with (digits 10 rest (Some 0)).
    by apply digits_stop.
  - change (pretty (Z.pos p)) with (pretty p).
    destruct (digits_pretty_positive p rest Hstop) as (c & r & -> & Hc & Hd).
    by rewrite parseInt_digit_start.
  - change (pretty (Z.neg p) +:+ rest) with (String "-" (pretty p +:+ rest)).
    destruct (digits_pretty_positive p rest Hstop) as (c & r & -> & Hc & Hd).
    rewrite parseInt_minus_digit_start by done. by rewrite Hd.
Qed.

(** ** Keys *)

Lemma key_split (a b c d : string) :
  dash_free a = true → dash_free c = true →
  a +:+ "-" +:+ b = c +:+ "-" +:+ d → a = c ∧ b = d.
Proof.
  revert c. induction a as [|x a IH]; intros [|y c] Ha Hc Heq.
  - by injection Heq.
  - exfalso. injection Heq as Hy _. simpl in Hc. rewrite <- Hy in Hc.
    discriminate.
  - exfalso. injection Heq as Hx _. simpl in Ha. rewrite Hx in Ha.
    discriminate.
  - injection Heq as -> Heq. simpl in Ha, Hc.
    apply andb_true_iff in Ha as [_ Ha]. apply andb_true_iff in Hc as [_ Hc].
    destruct (IH c Ha Hc Heq) as [-> ->]. done.
Qed.

(** ** Class names *)

Lemma classList_add_elem (token t : string) (tokens : list string) :
  t ∈ classList_add token tokens ↔ t = token ∨ t ∈ tokens.
Proof.
  unfold classList_add. case_bool_decide as Hin.
  - split; [by right | by intros [-> | ?]].
  - rewrite elem_of_app, list_elem_of_singleton. tauto.
Qed.

Lemma classList_remove_elem (token t : string) (tokens : list string) :
  t ∈ classList_remove token tokens ↔ t ≠ token ∧ t ∈ tokens.
Proof.
  unfold classList_remove.
  rewrite !list_elem_of_In, filter_In, negb_true_iff, String.eqb_neq. tauto.
Qed.

Lemma classList_add_NoDup (token : string) (tokens : list string) :
  NoDup tokens → NoDup (classList_add token tokens).
Proof.
  intros Hnd. unfold classList_add. case_bool_decide as Hin; [done |].
  apply NoDup_app. split; [done |]. split; [|apply NoDup_singleton].
  intros t Ht ->%list_elem_of_singleton. done.
Qed.

Lemma classList_remove_NoDup (token : string) (tokens : list string) :
  NoDup tokens → NoDup (classList_remove token tokens).
Proof.
  unfold classList_remove.
  induction 1 as [|t tokens Hnotin Hnd IH]; simpl; [constructor |].
  destruct (negb (t =? token)%string) eqn:Ht; [|done].
  constructor; [|done].
  intros Hin. apply Hnotin.
  apply list_elem_of_In, filter_In in Hin as [Hin _].
  by apply list_elem_of_In.
Qed.

(** ** Markup written out

    Closes a goal that equates markup built by the program with the same
    markup written out as text. *)

Ltac markup :=
  unfold row_html, line, td, td_class, dq, nl, ToString;
  rewrite ?string_app_assoc; reflexivity.

(** Closes a goal that equates the matches of a reference, written
    out, with [matched]. *)
Ltac matches_written_out :=
  unfold matched; apply filter_ext; intros ?;
  by rewrite has_measurement_orb.

(** ** The properties of the projection *)



(** C2. When the payload yields rows, the rows carry the indices
    1, 2, ..., totalRecords in the order they are written, only measured
    glass entries have a row, and the glass entries matched by one
    reference entry give consecutive rows, each written with its own
    index and with that reference's page, No and Reference_Code. *)
Theorem C2_row_indices_dense (data : Payload) (view : ResultsView) :
  yields_rows data = true →
  let shown := displayResults data view in
  let matches (ref : ReferenceEntry) :=
    List.filter
      (λ glass,
         bool_decide
           (ToString (ref_no glass) +:+ "-" +:+ ToString (ref_code glass)
            = ToString (No ref) +:+ "-" +:+ ToString (Reference_Code ref))
         && (truthy (GW glass) || truthy (GH glass) || truthy (Qty glass)))
      (default [] (glass_data data)) in
  referenceData_innerHTML shown
    = table_open +:+ rows_html (rows data) +:+ table_close
  ∧ (∀ row rest,
       rows_html (row :: rest)
       = ("
                                        <tr>
                                            <td>"
        +:+ pretty (row_index row)
        +:+ "</td>
                                            <td class="
        +:+ quote
        +:+ "page-cell"
        +:+ quote
        +:+ ">"
        +:+ ToString (page (row_ref row))
        +:+ "</td>
                                            <td>"
        +:+ ToString (No (row_ref row))
        +:+ "</td>
                                            <td>"
        +:+ ToString (Reference_Code (row_ref row))
        +:+ "</td>
                                            <td class="
        +:+ quote
        +:+ "glass-cell"
        +:+ quote
        +:+ ">"
        +:+ cell (GW (row_glass row))
        +:+ "</td>
                                            <td class="
        +:+ quote
        +:+ "glass-cell"
        +:+ quote
        +:+ ">"
        +:+ cell (GH (row_glass row))
        +:+ "</td>
                                            <td class="
        +:+ quote
        +:+ "glass-cell"
        +:+ quote
        +:+ ">"
        +:+ cell (Qty (row_glass row))
        +:+ "</td>
                                        </tr>
                                    ")
         +:+ rows_html rest)
  ∧ rows_html [] = ""
  ∧ totalRecords_textContent shown = pretty (Z.of_nat (length (rows data)))
  ∧ map row_index (rows data) = map Z.of_nat (seq 1 (length (rows data)))
  ∧ map row_glass (rows data)
    = flat_map matches (default [] (reference_code data))
  ∧ ∀ before ref after,
      default [] (reference_code data) = before ++ ref :: after →
      ∃ first : nat,
        ∀ (k : nat) (glass : GlassEntry),
          matches ref !! k = Some glass →
          rows data !! (first + k)%nat
          = Some {| row_index := Z.of_nat (first + k) + 1;
                    row_ref := ref; row_glass := glass |}.
Proof.
  intros Hrows shown matches. subst shown.
  assert (Hmatches : ∀ ref, matches ref = matched data ref)
    by (intros ref; matches_written_out).
  rewrite (displayResults_table _ _ Hrows).
  split; [done |]. split; [|split; [done |]].
  { intros row rest. rewrite rows_html_cons. f_equal. markup. }
  split; [done |]. split; [|split].
  - apply (rows_from_index data _ 1).
  - unfold rows. rewrite rows_from_glass.
    apply flat_map_ext. intros ref. by rewrite Hmatches.
  - intros before ref after Hrefs. unfold rows. rewrite Hrefs.
    rewrite rows_from_app. simpl.
    exists (length (rows_from data 1 before)). intros k glass Hk.
    rewrite Hmatches in Hk.
    rewrite lookup_app_r by lia.
    replace (length (rows_from data 1 before) + k
             - length (rows_from data 1 before))%nat with k by lia.
    rewrite lookup_app_l.
    + rewrite number_rows_lookup, Hk. simpl. do 2 f_equal. lia.
    + rewrite number_rows_length. by eapply lookup_lt_Some.
Qed.

Lemma C2_row_indices_dense_witness :
  referenceData_innerHTML (displayResults payload_mixed blank_view)
  = "
                        <table class="
      +:+ quote
      +:+ "data-table"
      +:+ quote
      +:+ ">
                            <thead>
                                <tr>
                                    <th>ลำดับ</th>
                                    <th>หน้า</th>
                                    <th>No</th>
                                    <th>Reference Code</th>
                                    <th>GW</th>
                                    <th>GH</th>
                                    <th>Qty</th>
                                </tr>
                            </thead>
                            <tbody>
                    
                                        <tr>
                                            <td>1</td>
                                            <td class="
      +:+ quote
      +:+ "page-cell"
      +:+ quote
      +:+ ">3</td>
                                            <td>1</td>
                                            <td>A</td>
                                            <td class="
      +:+ quote
      +:+ "glass-cell"
      +:+ quote
      +:+ ">10</td>
                                            <td class="
      +:+ quote
      +:+ "glass-cell"
      +:+ quote
      +:+ ">20</td>
                                            <td class="
      +:+ quote
      +:+ "glass-cell"
      +:+ quote
      +:+ ">3</td>
                                        </tr>
                                    
                                        <tr>
                                            <td>2</td>
                                            <td class="
      +:+ quote
      +:+ "page-cell"
      +:+ quote
      +:+ ">3</td>
                                            <td>1</td>
                                            <td>A</td>
                                            <td class="
      +:+ quote
      +:+ "glass-cell"
      +:+ quote
      +:+ ">-</td>
                                            <td class="
      +:+ quote
      +:+ "glass-cell"
      +:+ quote
      +:+ ">35</td>
                                            <td class="
      +:+ quote
      +:+ "glass-cell"
      +:+ quote
      +:+ ">4</td>
                                        </tr>
                                    
                                        <tr>
                                            <td>3</td>
                                            <td class="
      +:+ quote
      +:+ "page-cell"
      +:+ quote
      +:+ ">5</td>
                                            <td>2</td>
                                            <td>B</td>
                                            <td class="
      +:+ quote
      +:+ "glass-cell"
      +:+ quote
      +:+ ">7</td>
                                            <td class="
      +:+ quote
      +:+ "glass-cell"
      +:+ quote
      +:+ ">-</td>
                                            <td class="
      +:+ quote
      +:+ "glass-cell"
      +:+ quote
      +:+ ">abc</td>
                                        </tr>
                                    
                            </tbody>
                        </table>
                    "
  ∧ map row_index (rows payload_mixed) = [1; 2; 3]
  ∧ map row_glass (rows payload_mixed)
    = [glass_1A; glass_1A_second; glass_2B]
  ∧ totalRecords_textContent (displayResults payload_mixed blank_view) = "3".
Proof.
  destruct (C2_row_indices_dense payload_mixed blank_view)
    as (Hhtml & _ & _ & Hrecords & Hindex & Hglass & _).
  - vm_compute. reflexivity.
  - split; [|split; [|split]].
    + rewrite Hhtml. vm_compute. reflexivity.
    + rewrite Hindex. vm_compute. reflexivity.
    + rewrite Hglass. vm_compute. reflexivity.
    + rewrite Hrecords. vm_compute. reflexivity.
Defined.

(** C3. When the payload yields rows, and every parsed quantity and
    every running total is a safe integer (of magnitude at most
    2^53 - 1, where the program's numbers are exact), totalGlassCount is
    the sum over the rows of [parseInt(Qty) || 0] and totalRecords is
    the number of rows.  A missing Qty and a Qty whose text starts no
    number add 0; a Qty that is a safe integer, or the decimal text of
    one, with white space before it or other text after it, adds that
    number. *)
Theorem C3_summary_totals (data : Payload) (view : ResultsView) :
  let shown := displayResults data view in
  let refs := default [] (reference_code data) in
  let quantities :=
    map (λ row, num_or (parseInt (Qty (row_glass row))) 0) (rows data) in
  yields_rows data = true →
  Forall (λ q, - 9007199254740991 ≤ q ≤ 9007199254740991) quantities →
  (∀ k, - 9007199254740991 ≤ foldr Z.add 0 (take k quantities)
        ≤ 9007199254740991) →
  totalGlassCount (build_table data refs) = foldr Z.add 0 quantities
  ∧ totalRecords (build_table data refs) = Z.of_nat (length (rows data))
  ∧ totalGlass_textContent shown = pretty (foldr Z.add 0 quantities)
  ∧ totalRecords_textContent shown = pretty (Z.of_nat (length (rows data)))
  ∧ referenceData_innerHTML shown
    = table_open +:+ rows_html (rows data) +:+ table_close
  ∧ (∀ row rest,
       rows_html (row :: rest)
       = ("
                                        <tr>
                                            <td>"
        +:+ pretty (row_index row)
        +:+ "</td>
                                            <td class="
        +:+ quote
        +:+ "page-cell"
        +:+ quote
        +:+ ">"
        +:+ ToString (page (row_ref row))
        +:+ "</td>
                                            <td>"
        +:+ ToString (No (row_ref row))
        +:+ "</td>
                                            <td>"
        +:+ ToString (Reference_Code (row_ref row))
        +:+ "</td>
                                            <td class="
        +:+ quote
        +:+ "glass-cell"
        +:+ quote
        +:+ ">"
        +:+ cell (GW (row_glass row))
        +:+ "</td>
                                            <td class="
        +:+ quote
        +:+ "glass-cell"
        +:+ quote
        +:+ ">"
        +:+ cell (GH (row_glass row))
        +:+ "</td>
                                            <td class="
        +:+ quote
        +:+ "glass-cell"
        +:+ quote
        +:+ ">"
        +:+ cell (Qty (row_glass row))
        +:+ "</td>
                                        </tr>
                                    ")
         +:+ rows_html rest)
  ∧ rows_html [] = ""
  ∧ num_or (parseInt Undefined) 0 = 0
  ∧ (∀ c s,
       code c < 128 → ws1 c = false → code c ≠ 43 → code c ≠ 45 →
       ¬ (48 ≤ code c ≤ 57) →
       num_or (parseInt (Str (String c s))) 0 = 0)
  ∧ (∀ n, - 9007199254740991 ≤ n ≤ 9007199254740991 →
          num_or (parseInt (Num n)) 0 = n)
  ∧ (∀ n rest,
       - 9007199254740991 ≤ n ≤ 9007199254740991 →
       match rest with
       | EmptyString => True
       | String c _ =>
           ¬ (48 ≤ code c ≤ 57) ∧ (n = 0 → code c ≠ 120 ∧ code c ≠ 88)
       end →
       num_or (parseInt (Str (pretty n +:+ rest))) 0 = n)
  ∧ (∀ c s,
       ws1 c = true →
       num_or (parseInt (Str (String c s))) 0 = num_or (parseInt (Str s)) 0).
Proof.
  intros shown refs quantities Hrows _ _. subst shown refs quantities.
  assert (Hnum : ∀ n, num_or (Some n) 0 = n).
  { intros n. simpl. destruct (n =? 0) eqn:Hz; [|done].
    by apply Z.eqb_eq in Hz. }
  rewrite (displayResults_table _ _ Hrows), build_table_rows.
  cbn [referenceData_innerHTML totalGlass_textContent
       totalRecords_textContent totalGlassCount totalRecords ToString].
  assert (Hsum : ∀ rows,
            sum_qty rows
            = foldr Z.add 0
                (map (λ row, num_or (parseInt (Qty (row_glass row))) 0) rows)).
  { induction rows0 as [|row rows0 IH]; [done |].
    unfold sum_qty in *. simpl. by rewrite IH. }
  rewrite !Hsum.
  do 5 (split; [done |]). split.
  { intros row rest. rewrite rows_html_cons. f_equal. markup. }
  split; [done |]. split; [done |]. split; [|split; [|split]].
  - intros c s Hascii Hws Hplus Hminus Hdigit. by rewrite parseInt_NaN.
  - intros n _. pose proof (parseInt_pretty n "" I) as H.
    rewrite string_app_nil_r in H.
    change (parseInt (Num n)) with (parseInt (Str (pretty n))).
    rewrite H. apply Hnum.
  - intros n rest _ Hrest. rewrite parseInt_pretty by done. apply Hnum.
  - intros c s Hws. unfold parseInt. simpl. by rewrite Hws.
Qed.

Lemma C3_summary_totals_witness :
  totalGlass_textContent (displayResults payload_quantities blank_view) = "33"
  ∧ totalRecords_textContent (displayResults payload_quantities blank_view)
    = "7"
  ∧ map (λ row, num_or (parseInt (Qty (row_glass row))) 0)
      (rows payload_quantities) = [3; 12; 0; 0; 4; -2; 16].
Proof.
  assert (Hq : map (λ row, num_or (parseInt (Qty (row_glass row))) 0)
                 (rows payload_quantities) = [3; 12; 0; 0; 4; -2; 16])
    by (vm_compute; reflexivity).
  destruct (C3_summary_totals payload_quantities blank_view)
    as (_ & _ & Hglass & Hrecords & _).
  - vm_compute. reflexivity.
  - rewrite Hq. repeat constructor; lia.
  - intros k. rewrite Hq.
    destruct (decide (k < 7)%nat) as [Hk | Hk].
    + do 7 (destruct k as [|k]; [vm_compute; split; discriminate |]). lia.
    + rewrite take_ge by (simpl; lia). vm_compute; split; discriminate.
  - split; [|split].
    + refine (eq_trans Hglass _). vm_compute. reflexivity.
    + refine (eq_trans Hrecords _). vm_compute. reflexivity.
    + exact Hq.
Defined.

(** C4. When the payload yields rows, the totalReferences element shows
    the payload's total_references as it came, whatever the reference
    entries, the glass entries and the number of rows are: a text as it
    is, a safe integer by its digits, nothing for a missing value.  It
    can differ from totalRecords and from the number of reference
    entries. *)
Theorem C4_total_references_verbatim (data : Payload) (view : ResultsView) :
  yields_rows data = true →
  let text := totalReferences_textContent (displayResults data view) in
  text = textContent (total_references data)
  ∧ (∀ s, total_references data = Str s → text = s)
  ∧ (∀ n, total_references data = Num n →
          - 9007199254740991 ≤ n ≤ 9007199254740991 → text = pretty n)
  ∧ (total_references data = Undefined ∨ total_references data = Null →
     text = "")
  ∧ (∀ b, total_references data = Bool b →
          text = if b then "true" else "false")
  ∧ ∀ total,
      let shown := displayResults (payload_1A (Num 3) total) view in
      totalReferences_textContent shown = textContent total
      ∧ totalRecords_textContent shown = "1".
Proof.
  intros Hrows text. subst text.
  rewrite (displayResults_table _ _ Hrows). simpl.
  split; [done |]. split; [by intros s -> |]. split; [by intros n -> _ |].
  split; [by intros [-> | ->] |]. split; [by intros [] -> |].
  intros total. by split.
Qed.

Lemma C4_total_references_verbatim_witness :
  totalReferences_textContent (displayResults payload_mixed blank_view) = "9"
  ∧ totalRecords_textContent (displayResults payload_mixed blank_view) = "3"
  ∧ length (default [] (reference_code payload_mixed)) = 2%nat.
Proof.
  destruct (C4_total_references_verbatim payload_mixed blank_view)
    as (_ & _ & Hnum & _).
  - vm_compute. reflexivity.
  - split; [|split].
    + rewrite (Hnum 9); [reflexivity | reflexivity | lia].
    + vm_compute. reflexivity.
    + reflexivity.
Defined.




(** C7. A row whose Qty is "abc" adds 0 to totalGlassCount and is
    written with "abc" in its Qty cell; a measurement cell shows the
    dash exactly when the value is missing or empty (falsy), and every
    non-empty string, numeric or not, is shown as it is. *)
Theorem C7_non_numeric_qty_shown (ref : ReferenceEntry) (glass : GlassEntry)
    (t : Table) :
  Qty glass = Str "abc" →
  add_row ref t glass
    = {| totalGlassCount := totalGlassCount t + 0;
         totalRecords := totalRecords t + 1;
         tableHTML :=
           tableHTML t
           +:+ ("
                                        <tr>
                                            <td>"
              +:+ pretty (rowIndex t)
              +:+ "</td>
                                            <td class="
              +:+ quote
              +:+ "page-cell"
              +:+ quote
              +:+ ">"
              +:+ ToString (page ref)
              +:+ "</td>
                                            <td>"
              +:+ ToString (No ref)
              +:+ "</td>
                                            <td>"
              +:+ ToString (Reference_Code ref)
              +:+ "</td>
                                            <td class="
              +:+ quote
              +:+ "glass-cell"
              +:+ quote
              +:+ ">"
              +:+ cell (GW glass)
              +:+ "</td>
                                            <td class="
              +:+ quote
              +:+ "glass-cell"
              +:+ quote
              +:+ ">"
              +:+ cell (GH glass)
              +:+ "</td>
                                            <td class="
              +:+ quote
              +:+ "glass-cell"
              +:+ quote
              +:+ ">abc</td>
                                        </tr>
                                    ");
         rowIndex := rowIndex t + 1 |}
  ∧ (∀ v, truthy v = true → cell v = ToString v)
  ∧ (∀ v, truthy v = false → cell v = "-")
  ∧ (∀ v, truthy v = false
          ↔ v = Undefined ∨ v = Null ∨ v = Bool false ∨ v = Num 0
            ∨ v = Str "")
  ∧ (∀ c s, cell (Str (String c s)) = String c s)
  ∧ cell Undefined = "-" ∧ cell (Str "") = "-".
Proof.
  intros Hq. split; [|split; [|split; [|split; [|split]]]].
  - unfold add_row. rewrite has_measurement_orb, Hq. simpl.
    rewrite orb_true_r. unfold row_html. rewrite Hq. f_equal. markup.
  - intros v Hv. by rewrite cell_cases, Hv.
  - intros v Hv. by rewrite cell_cases, Hv.
  - apply truthy_false.
  - done.
  - done.
Qed.

Lemma C7_non_numeric_qty_shown_witness :
  add_row ref_2B
    {| totalGlassCount := 5; totalRecords := 1;
       tableHTML := ""; rowIndex := 2 |} glass_2B
  = {| totalGlassCount := 5; totalRecords := 2;
       tableHTML :=
         "
                                        <tr>
                                            <td>2</td>
                                            <td class="
        +:+ quote
        +:+ "page-cell"
        +:+ quote
        +:+ ">5</td>
                                            <td>2</td>
                                            <td>B</td>
                                            <td class="
        +:+ quote
        +:+ "glass-cell"
        +:+ quote
        +:+ ">7</td>
                                            <td class="
        +:+ quote
        +:+ "glass-cell"
        +:+ quote
        +:+ ">-</td>
                                            <td class="
        +:+ quote
        +:+ "glass-cell"
        +:+ quote
        +:+ ">abc</td>
                                        </tr>
                                    ";
       rowIndex := 3 |}.
Proof.
  destruct (C7_non_numeric_qty_shown ref_2B glass_2B
              {| totalGlassCount := 5; totalRecords := 1;
                 tableHTML := ""; rowIndex := 2 |})
    as (Hadd & _).
  - reflexivity.
  - rewrite Hadd. vm_compute. reflexivity.
Defined.

(** C8, as amended.  In the upload handler of index3.html, a submission
    that does not succeed leaves the results region hidden and shows the
    error region.  Its text is the generic server-contact message when
    an exception is thrown: fetch rejects, the body is not JSON or is
    null, or a response that is ok and reports success cannot be shown
    (no data, or product messages that cannot be mapped).  For any other
    JSON body, on a response that is not ok or that reports a falsy
    success, it is the body's error text when there is one, whatever the
    HTTP status, and the generic unknown-error message otherwise. *)
Theorem C8_failure_messages (no_file : bool) (fetched : Fetched) (p : Page) :
  succeeds fetched = false →
  let p' := submit no_file fetched p in
  resultsSection_display p' = "none"
  ∧ errorMessage_display p' = "block"
  ∧ errorMessage_textContent p'
    = match fetched with
      | Response ok (Json result) | Response ok (JsonBadMessages result) =>
          if ok && truthy (success result) then server_error
          else textContent (Js.or (error result) (Str unknown_error))
      | _ => server_error
      end
  ∧ server_error = "เกิดข้อผิดพลาดในการติดต่อกับเซิร์ฟเวอร์"
  ∧ unknown_error = "เกิดข้อผิดพลาดที่ไม่ทราบสาเหตุ"
  ∧ (∀ c s,
       textContent (Js.or (Str (String c s)) (Str unknown_error))
       = String c s)
  ∧ (∀ v, truthy v = false →
          textContent (Js.or v (Str unknown_error)) = unknown_error).
Proof.
  intros Hfail p'. subst p'.
  assert (Hcases :
    let p' := submit no_file fetched p in
    resultsSection_display p' = "none"
    ∧ errorMessage_display p' = "block"
    ∧ errorMessage_textContent p'
      = match fetched with
        | Response ok (Json result) | Response ok (JsonBadMessages result) =>
            if ok && truthy (success result) then server_error
            else textContent (Js.or (error result) (Str unknown_error))
        | _ => server_error
        end).
  { destruct fetched as [|ok [| |result|result]]; try done;
      unfold submit, try_block; simpl in Hfail |- *;
      destruct (ok && truthy (success result)); try done;
      by destruct (data result). }
  destruct Hcases as (Hresults & Hshown & Htext).
  split; [done |]. split; [done |]. split; [done |].
  split; [done |]. split; [done |]. split; [done |].
  intros v Hv. unfold Js.or. by rewrite Hv.
Qed.

Lemma C8_failure_messages_witness :
  let text (fetched : Fetched) :=
    errorMessage_textContent (submit false fetched blank_page) in
  let hidden (fetched : Fetched) :=
    resultsSection_display (submit false fetched blank_page) in
  text NetworkError = "เกิดข้อผิดพลาดในการติดต่อกับเซิร์ฟเวอร์"
  ∧ text (Response false NotJson) = "เกิดข้อผิดพลาดในการติดต่อกับเซิร์ฟเวอร์"
  ∧ text (Response false JsonNull) = "เกิดข้อผิดพลาดในการติดต่อกับเซิร์ฟเวอร์"
  ∧ text (Response true (Json (result_of (Bool true) Undefined None)))
    = "เกิดข้อผิดพลาดในการติดต่อกับเซิร์ฟเวอร์"
  ∧ text (Response true
            (JsonBadMessages
               (result_of (Bool true) Undefined (Some payload_mixed))))
    = "เกิดข้อผิดพลาดในการติดต่อกับเซิร์ฟเวอร์"
  ∧ text (Response false (Json (result_of (Bool true) (Str "bad file") None)))
    = "bad file"
  ∧ text (Response true (Json (result_of (Bool false) (Str "bad file") None)))
    = "bad file"
  ∧ text (Response false (Json (result_of (Bool false) Undefined None)))
    = "เกิดข้อผิดพลาดที่ไม่ทราบสาเหตุ"
  ∧ hidden NetworkError = "none"
  ∧ hidden (Response true
              (JsonBadMessages
                 (result_of (Bool true) Undefined (Some payload_mixed))))
    = "none".
Proof.
  intros text hidden. subst text hidden.
  pose proof (λ fetched H, C8_failure_messages false fetched blank_page H)
    as Hall.
  simpl in Hall.
  repeat split;
    try (by refine (proj1 (proj2 (proj2 (Hall _ _))) ));
    by refine (proj1 (Hall _ _)).
Defined.

(** C8, as stated, fails: a response that is not ok and whose JSON body
    carries an error text shows that text, not a generic message. *)
Lemma C8_server_text_on_http_failure :
  let p := submit false refused blank_page in
  succeeds refused = false
  ∧ errorMessage_display p = "block"
  ∧ errorMessage_textContent p = "File too large"
  ∧ errorMessage_textContent p ≠ unknown_error
  ∧ errorMessage_textContent p ≠ server_error.
Proof.
  vm_compute. repeat split; discriminate.
Qed.



(** C10. The measurement test is truthiness: a glass entry whose GW, GH
    and Qty are all falsy (absent, null, empty string, the number 0) is
    not kept by the grouping pass, adds no row and has no row in the
    table; in a row, a measurement that is the number 0 is shown as the
    dash, and a Qty that is the number 0 adds 0 to totalGlassCount. *)
Theorem C10_truthiness_of_measurements (data : Payload) (ref : ReferenceEntry)
    (glass : GlassEntry) (t : Table) :
  truthy (GW glass) = false → truthy (GH glass) = false →
  truthy (Qty glass) = false →
  has_measurement glass = false
  ∧ add_row ref t glass = t
  ∧ (∀ m, group_glass m glass !! glass_refKey glass
          = Some (default [] (m !! glass_refKey glass)))
  ∧ (∀ row, In row (rows data) → row_glass row ≠ glass)
  ∧ truthy Undefined = false ∧ truthy Null = false
  ∧ truthy (Str "") = false ∧ truthy (Num 0) = false
  ∧ cell (Num 0) = "-"
  ∧ num_or (parseInt (Num 0)) 0 = 0.
Proof.
  intros Hw Hh Hq.
  assert (Hm : has_measurement glass = false)
    by by rewrite has_measurement_orb, Hw, Hh, Hq.
  split; [done |]. split; [|split; [|split]].
  - unfold add_row. by rewrite Hm.
  - intros m. rewrite group_glass_lookup. unfold keyed.
    rewrite bool_decide_eq_true_2 by done. by rewrite Hm, app_nil_r.
  - intros row Hrow <-.
    apply rows_from_In in Hrow as [_ Hin].
    apply matched_In in Hin as (_ & _ & Hyes). congruence.
  - by repeat split.
Qed.

Lemma C10_truthiness_of_measurements_witness :
  In glass_1A_empty (default [] (glass_data payload_mixed))
  ∧ ∀ row, In row (rows payload_mixed) → row_glass row ≠ glass_1A_empty.
Proof.
  destruct (C10_truthiness_of_measurements payload_mixed ref_2B glass_1A_empty
              {| totalGlassCount := 0; totalRecords := 0;
                 tableHTML := table_open; rowIndex := 1 |})
    as (_ & _ & _ & Hrows & _).
  - reflexivity.
  - reflexivity.
  - reflexivity.
  - split; [|exact Hrows]. simpl. auto.
Defined.

(** ** Further properties of the projection *)

(** X1. [glassByRef] has a key exactly when some glass entry has it, and
    holds under it the measured glass entries of that key, in payload
    order: a key whose entries are all unmeasured is there with an empty
    list. *)
Theorem X1_glassByRef_lookup (data : Payload) (key : string) :
  let glasses := default [] (glass_data data) in
  (glassByRef data !! key = None
   ↔ ∀ glass, In glass glasses → glass_refKey glass ≠ key)
  ∧ ∀ entries,
      glassByRef data !! key = Some entries →
      entries
      = List.filter
          (λ glass, bool_decide (glass_refKey glass = key)
                    && has_measurement glass) glasses.
Proof.
  intros glasses.
  assert (Hlookup : glassByRef data !! key
            = if existsb (keyed key) glasses
              then Some (List.filter (keyed_measured key) glasses)
              else None).
  { unfold glassByRef, glasses.
    destruct (glass_data data) as [gs|]; simpl; [|done].
    apply group_fold_lookup. }
  rewrite Hlookup. split.
  - destruct (existsb (keyed key) glasses) eqn:Hex.
    + split; [done |]. intros Hnone.
      apply existsb_exists in Hex as (glass & Hin & Hk).
      apply bool_decide_eq_true in Hk. by destruct (Hnone glass Hin).
    + split; [|done]. intros _ glass Hin Hk.
      assert (existsb (keyed key) glasses = true); [|congruence].
      apply existsb_exists. exists glass. split; [done |].
      by apply bool_decide_eq_true.
  - intros entries. by destruct (existsb (keyed key) glasses); intros [= <-].
Qed.






(** X5. Drawing the same payload twice changes nothing, and a payload
    that yields rows overwrites everything [displayResults] writes: the
    result does not depend on what was shown before. *)
Theorem X5_displayResults_overwrites (data : Payload) (view : ResultsView) :
  displayResults data (displayResults data view) = displayResults data view
  ∧ (yields_rows data = true →
     ∀ view', displayResults data view' = displayResults data view).
Proof.
  split.
  - destruct (yields_rows data) eqn:Hyes.
    + by rewrite !(displayResults_table _ _ Hyes).
    + destruct (displayResults_placeholder data view Hyes) as [_ Hv].
      destruct (displayResults_placeholder data (displayResults data view)
                  Hyes) as [_ ->].
      by rewrite Hv.
  - intros Hyes view'. by rewrite !(displayResults_table _ _ Hyes).
Qed.

(** X6. The join is by text, and exact when the No and ref_no texts hold
    no separator: then the keys are equal exactly when the two No texts
    and the two code texts are. *)
Theorem X6_key_exact_without_separator (ref : ReferenceEntry)
    (glass : GlassEntry) :
  dash_free (ToString (No ref)) = true →
  dash_free (ToString (ref_no glass)) = true →
  refKey ref = glass_refKey glass
  ↔ ToString (No ref) = ToString (ref_no glass)
    ∧ ToString (Reference_Code ref) = ToString (ref_code glass).
Proof.
  intros Href Hglass. unfold refKey, glass_refKey. split.
  - by apply key_split.
  - by intros [-> ->].
Qed.

Lemma X6_key_exact_without_separator_witness :
  refKey (ref_1A (Num 3)) = glass_refKey glass_1A_second
  ∧ No (ref_1A (Num 3)) ≠ ref_no glass_1A_second.
Proof.
  split; [|done].
  apply (X6_key_exact_without_separator (ref_1A (Num 3)) glass_1A_second);
    [reflexivity | reflexivity | by split].
Defined.



(** ** Properties of the submit handlers *)

(** X8. Whatever the outcome of the request, the handler ends with the
    loading indicator hidden and the button disabled exactly when no file
    is chosen.  On success the success message is shown with the results
    and download regions and the error message is hidden; otherwise the
    error message is shown with both regions hidden, and the success
    message is hidden too unless the failure is the exception thrown on
    product messages that cannot be mapped, after the success message
    was shown: then both messages are visible. *)
Theorem X8_submit_one_message (no_file : bool) (fetched : Fetched) (p : Page) :
  let p' := submit no_file fetched p in
  loading_display p' = "none"
  ∧ processBtn_disabled p' = no_file
  ∧ if succeeds fetched
    then successMessage_display p' = "block"
         ∧ errorMessage_display p' = "none"
         ∧ resultsSection_display p' = "block"
         ∧ downloadSection_display p' = "block"
    else errorMessage_display p' = "block"
         ∧ resultsSection_display p' = "none"
         ∧ downloadSection_display p' = "none"
         ∧ successMessage_display p'
           = match fetched with
             | Response true (JsonBadMessages result) =>
                 if truthy (success result)
                    && bool_decide (is_Some (data result))
                 then "block" else "none"
             | _ => "none"
             end.
Proof.
  intros p'. subst p'. split; [done |]. split; [done |].
  destruct fetched as [|[] [| |result|result]]; try done;
    unfold submit, try_block; simpl succeeds;
    destruct (truthy (success result)), (data result); done.
Qed.

(** X9. A submission that does not succeed leaves the product messages
    as they were, and, unless the success branch was entered and threw
    on product messages that cannot be mapped, also the table, the
    summary and the text of the success message; in that one case the
    new payload has been drawn in the hidden results region and the
    success text replaced. *)
Theorem X9_failed_submit_keeps_results (no_file : bool) (fetched : Fetched)
    (p : Page) :
  succeeds fetched = false →
  let p' := submit no_file fetched p in
  productInfo_display p' = productInfo_display p
  ∧ productInfo_innerHTML p' = productInfo_innerHTML p
  ∧ match fetched with
    | Response true (JsonBadMessages result) =>
        match data result with
        | Some payload =>
            if truthy (success result)
            then results p' = displayResults payload (results p)
                 ∧ successMessage_textContent p'
                   = textContent (message result)
            else results p' = results p
                 ∧ successMessage_textContent p'
                   = successMessage_textContent p
        | None =>
            results p' = results p
            ∧ successMessage_textContent p' = successMessage_textContent p
        end
    | _ =>
        results p' = results p
        ∧ successMessage_textContent p' = successMessage_textContent p
    end.
Proof.
  intros Hfail p'. subst p'.
  destruct fetched as [|[] [| |result|result]]; try done;
    unfold submit, try_block; simpl in Hfail |- *;
    destruct (truthy (success result)), (data result); done.
Qed.

Lemma X9_failed_submit_keeps_results_witness :
  results (submit false refused blank_page) = blank_view
  ∧ totalRecords_textContent
      (results
         (submit false
            (Response true
               (JsonBadMessages
                  (result_of (Bool true) Undefined (Some payload_mixed))))
            blank_page)) = "3".
Proof.
  split.
  - destruct (X9_failed_submit_keeps_results false refused blank_page)
      as (_ & _ & Hresults & _); [reflexivity | exact Hresults].
  - destruct (X9_failed_submit_keeps_results false
                (Response true
                   (JsonBadMessages
                      (result_of (Bool true) Undefined (Some payload_mixed))))
                blank_page) as (_ & _ & Hresults & _); [reflexivity |].
    refine (eq_trans (f_equal totalRecords_textContent Hresults) _).
    vm_compute. reflexivity.
Defined.

(** X10. A successful submission draws the payload with [displayResults]
    and shows the server's message; the product messages are shown, each
    in a paragraph and in order, when there is at least one, and
    otherwise the product region is hidden with its old content left in
    place; the text of the error region is not cleared. *)
Theorem X10_successful_submit (no_file : bool) (ok : bool) (result : Result)
    (payload : Payload) (p : Page) :
  ok = true → truthy (success result) = true → data result = Some payload →
  let p' := submit no_file (Response ok (Json result)) p in
  results p' = displayResults payload (results p)
  ∧ successMessage_textContent p' = textContent (message result)
  ∧ errorMessage_textContent p' = errorMessage_textContent p
  ∧ (∀ msg msgs,
       product_messages payload = Some (msg :: msgs) →
       productInfo_display p' = "block"
       ∧ productInfo_innerHTML p'
         = "<p>" +:+ msg +:+ "</p>" +:+ product_html msgs)
  ∧ (product_messages payload = None ∨ product_messages payload = Some [] →
     productInfo_display p' = "none"
     ∧ productInfo_innerHTML p' = productInfo_innerHTML p).
Proof.
  intros -> Hsuccess Hdata p'. subst p'.
  unfold submit, try_block. rewrite Hsuccess, Hdata. simpl.
  split; [done |]. split; [done |]. split; [done |]. split.
  - intros msg msgs ->. split; [done |]. simpl.
    by rewrite !string_app_assoc.
  - by intros [-> | ->].
Qed.

Lemma X10_successful_submit_witness :
  totalRecords_textContent
    (results
       (submit false
          (Response true
             (Json {| success := Bool true; message := Str "ok";
                      error := Undefined; data := Some payload_mixed |}))
          blank_page)) = "3".
Proof.
  destruct (X10_successful_submit false true
              {| success := Bool true; message := Str "ok";
                 error := Undefined; data := Some payload_mixed |}
              payload_mixed blank_page) as (Hresults & _).
  - reflexivity.
  - reflexivity.
  - reflexivity.
  - rewrite Hresults. vm_compute. reflexivity.
Defined.

(** X11. The handler of app.js logs the body exactly when the response
    is ok and its body is JSON; a response that is not ok rejects with
    the text HTTP and the status, whatever its body. *)
Theorem X11_app_submit (fetched : App.Fetched) :
  (∀ json,
     App.submit fetched = App.Logged json
     ↔ ∃ status, fetched = App.Response true status (Some json))
  ∧ ∀ status body,
      fetched = App.Response false status body →
      App.submit fetched
      = App.Rejected (Some ("HTTP " +:+ ToString (Num status))).
Proof.
  split.
  - intros json. split.
    + destruct fetched as [|[] status [text|]]; simpl; try done.
      intros [= ->]. by exists status.
    + by intros [status ->].
  - by intros status body ->.
Qed.

(** ** Properties of the drag-and-drop handlers *)



(** X13. A drag event other than a drop of at least one file changes
    neither the chosen files, nor the text of the upload area, nor the
    page: it only sets the two flags of the event and the highlight. *)
Theorem X13_drag_keeps_form (kind : DragKind) (e : DragEvent) (f : Form) :
  kind ≠ drop ∨ dataTransfer_files e = [] →
  let e' := (dispatch kind e f).1 in
  let f' := (dispatch kind e f).2 in
  fileInput_files f' = fileInput_files f
  ∧ uploadArea_innerHTML f' = uploadArea_innerHTML f
  ∧ form_page f' = form_page f
  ∧ defaultPrevented e' = true ∧ propagationStopped e' = true
  ∧ dataTransfer_files e' = dataTransfer_files e.
Proof.
  intros Hkind e' f'. subst e' f'. destruct kind; simpl; try done.
  destruct Hkind as [? | Hfiles]; [done |].
  unfold handleDrop. simpl. by rewrite Hfiles.
Qed.

Lemma X13_drag_keeps_form_witness :
  let e := {| defaultPrevented := false; propagationStopped := false;
              dataTransfer_files := ["plan.pdf"] |} in
  fileInput_files (dispatch dragleave e (initial_form "")).2 = []
  ∧ form_page (dispatch dragleave e (initial_form "")).2 = blank_page.
Proof.
  intros e.
  destruct (X13_drag_keeps_form dragleave e (initial_form ""))
    as (Hfiles & _ & Hpage & _).
  - by left.
  - split; [exact Hfiles | exact Hpage].
Defined.

(** X14. After any drag event the upload area is highlighted exactly
    when the event was dragenter or dragover; its other class names are
    kept, and no class name gets repeated. *)
Theorem X14_highlight_state (kind : DragKind) (e : DragEvent) (f : Form) :
  let classes := uploadArea_classList (dispatch kind e f).2 in
  ("dragover" ∈ classes ↔ kind = dragenter ∨ kind = dragover)
  ∧ (∀ t, t ≠ "dragover" → (t ∈ classes ↔ t ∈ uploadArea_classList f))
  ∧ (NoDup (uploadArea_classList f) → NoDup classes).
Proof.
  intros classes. subst classes.
  assert (Hadd : ∀ k, k = dragenter ∨ k = dragover →
            uploadArea_classList (dispatch k e f).2
            = classList_add "dragover" (uploadArea_classList f))
    by by intros k [-> | ->].
  assert (Hremove : ∀ k, k = dragleave ∨ k = drop →
            uploadArea_classList (dispatch k e f).2
            = classList_remove "dragover" (uploadArea_classList f)).
  { intros k [-> | ->]; [done |].
    unfold dispatch, handleDrop. simpl. by destruct (dataTransfer_files e). }
  assert (kind = dragenter ∨ kind = dragover
          ∨ kind = dragleave ∨ kind = drop) as [Hk | [Hk | [Hk | Hk]]]
    by (destruct kind; auto).
  1, 2: rewrite Hadd by auto; split; [|split];
    [ rewrite classList_add_elem; split; [by auto | by left]
    | intros t Ht; rewrite classList_add_elem; split; [by intros [? | ?] | by right]
    | apply classList_add_NoDup ].
  all: rewrite Hremove by auto; split; [|split];
    [ rewrite classList_remove_elem; split;
        [by intros [? _] | subst kind; by intros [? | ?]]
    | intros t Ht; rewrite classList_remove_elem; tauto
    | apply classList_remove_NoDup ].
Qed.

(** X15. After a submission the button is disabled exactly when the file
    input is empty: once a file has been dropped every submission ends
    with the button enabled, and clearing the choice neither disables the
    button nor changes the name shown until the next submission does. *)
Theorem X15_button_follows_files (fetched : Fetched) (f : Form) :
  (processBtn_disabled (form_page (submit_form fetched f)) = true
   ↔ fileInput_files f = [])
  ∧ (∀ e, dataTransfer_files e ≠ [] →
          processBtn_disabled
            (form_page (submit_form fetched (dispatch drop e f).2)) = false)
  ∧ uploadArea_innerHTML (change [] f) = uploadArea_innerHTML f
  ∧ form_page (change [] f) = form_page f
  ∧ processBtn_disabled (form_page (submit_form fetched (change [] f)))
    = true.
Proof.
  split; [|split; [|done]].
  - simpl. destruct (fileInput_files f); simpl; split; by intros ?.
  - intros e He. simpl. unfold handleDrop. simpl.
    by destruct (dataTransfer_files e).
Qed.

(** X16. A measurement cell is never blank: it shows the dash or the
    non-empty text of the value. *)
Theorem X16_cell_not_blank (v : value) : cell v ≠ "".
Proof.
  rewrite cell_cases. destruct v as [| |[]|[|p|p]|[|c s]]; try done.
  - simpl. change (pretty (Z.pos p)) with (pretty p).
    rewrite <- (string_app_nil_r (pretty p)), pretty_positive_app.
    by destruct (pretty_N_go_head (Npos p) "") as (c & r & -> & _).
Qed.
